(** * HOOMD-blue force/constraint evaluation core: a shallow embedding

    The development follows four source files:
    - [hoomd/md/FlatManifold.cc]               (module [Flat])
    - [hoomd/md/EvaluatorVanDerWaals.h]        (module [VanDerWaals])
    - [libhoomd/computes_gpu/ActiveForceComputeGPU.cc] (module [ActiveForceGPU])
    - [hoomd/extern/dfftlib/src/mkl_single_interface.h] (module [DFFT])

    HOOMD's [Scalar] is a build-time typedef ([float] or [double]).  The
    embedding is therefore parametric in the scalar arithmetic
    ([ScalarArith]); it is instantiated twice: with IEEE binary64 numbers
    (the double-precision build, which evaluates inside Rocq) and with the
    real numbers (exact arithmetic, in which rounding is abstracted away). *)

From stdpp Require Import list.
From Stdlib Require Import ZArith String Ascii Bool Lia Permutation.
From Stdlib Require Import Floats Reals Lra.

Set Implicit Arguments.
Local Open Scope Z_scope.

(** ** Scalar arithmetic *)

(** The operations the four files use on [Scalar] values.  [a >= b] is
    [sc_leb b a], and [a != b] is [negb (sc_eqb a b)], as in C++. *)
Class ScalarArith : Type := {
  Scalar : Type;
  sc_lit : Z -> Scalar;            (* the literals 0, 1.0, 2.0, 15.0, ... *)
  sc_pi : Scalar;                  (* M_PI *)
  sc_add : Scalar -> Scalar -> Scalar;
  sc_sub : Scalar -> Scalar -> Scalar;
  sc_mul : Scalar -> Scalar -> Scalar;
  sc_div : Scalar -> Scalar -> Scalar;
  sc_sqrt : Scalar -> Scalar;      (* fast::sqrt *)
  sc_ltb : Scalar -> Scalar -> bool;
  sc_leb : Scalar -> Scalar -> bool;
  sc_eqb : Scalar -> Scalar -> bool;
  sc_ge_not_lt : forall x y, sc_leb y x = true -> sc_ltb x y = false
}.

Declare Scope sc_scope.
Delimit Scope sc_scope with sc.
Infix "+" := sc_add : sc_scope.
Infix "-" := sc_sub : sc_scope.
Infix "*" := sc_mul : sc_scope.
Infix "/" := sc_div : sc_scope.
Infix "<?" := sc_ltb : sc_scope.
Notation "x >=? y" := (sc_leb y x) : sc_scope.
Notation "x !=? y" := (negb (sc_eqb x y)) (at level 70) : sc_scope.
Notation "# z" := (sc_lit z) (at level 5, z at level 0, format "# z") : sc_scope.

(** *** IEEE binary64 *)

Definition float_of_Z (z : Z) : float :=
  match z with
  | Z0 => PrimFloat.zero
  | Zpos _ => PrimFloat.of_uint63 (Uint63.of_Z z)
  | Zneg p => PrimFloat.opp (PrimFloat.of_uint63 (Uint63.of_Z (Zpos p)))
  end.

(** [M_PI] of <math.h>: 3.14159265358979323846 rounded to binary64. *)
Definition M_PI_double : float := 0x1.921fb54442d18p+1%float.

Lemma SFcompare_le_not_lt x y : SFleb y x = true -> SFltb x y = false.
Proof.
  unfold SFleb, SFltb.
  destruct x as [sx|sx| |sx mx ex], y as [sy|sy| |sy my ey]; simpl;
    try congruence;
    repeat match goal with s : bool |- _ => destruct s end;
    simpl; try congruence.
  - rewrite (Z.compare_antisym ey ex).
    destruct (ey ?= ex) eqn:E; simpl; try congruence.
    change (PosDef.Pos.compare_cont Eq) with Pos.compare.
    rewrite (Pos.compare_antisym my mx).
    destruct (Pos.compare my mx); simpl; congruence.
  - rewrite (Z.compare_antisym ey ex).
    destruct (ey ?= ex) eqn:E; simpl; try congruence.
    change (PosDef.Pos.compare_cont Eq) with Pos.compare.
    rewrite (Pos.compare_antisym my mx).
    destruct (Pos.compare my mx); simpl; congruence.
Qed.

Lemma float_ge_not_lt (x y : float) :
  PrimFloat.leb y x = true -> PrimFloat.ltb x y = false.
Proof. rewrite leb_spec, ltb_spec. apply SFcompare_le_not_lt. Qed.

#[export] Instance Double : ScalarArith := {|
  Scalar := float;
  sc_lit := float_of_Z;
  sc_pi := M_PI_double;
  sc_add := PrimFloat.add;
  sc_sub := PrimFloat.sub;
  sc_mul := PrimFloat.mul;
  sc_div := PrimFloat.div;
  sc_sqrt := PrimFloat.sqrt;
  sc_ltb := PrimFloat.ltb;
  sc_leb := PrimFloat.leb;
  sc_eqb := PrimFloat.eqb;
  sc_ge_not_lt := float_ge_not_lt
|}.

(** *** Exact real arithmetic *)

Definition Rltb (x y : R) : bool := if Rlt_dec x y then true else false.
Definition Rleb (x y : R) : bool := if Rle_dec x y then true else false.
Definition Reqb (x y : R) : bool := if Req_dec_T x y then true else false.

Lemma Rltb_true x y : Rltb x y = true <-> (x < y)%R.
Proof. unfold Rltb; destruct (Rlt_dec x y); split; intros; congruence || lra. Qed.

Lemma Rleb_true x y : Rleb x y = true <-> (x <= y)%R.
Proof. unfold Rleb; destruct (Rle_dec x y); split; intros; congruence || lra. Qed.

Lemma Rltb_false x y : Rltb x y = false <-> (y <= x)%R.
Proof. unfold Rltb; destruct (Rlt_dec x y); split; intros; congruence || lra. Qed.

Lemma R_ge_not_lt (x y : R) : Rleb y x = true -> Rltb x y = false.
Proof. rewrite Rleb_true, Rltb_false; auto. Qed.

#[export] Instance Exact : ScalarArith := {|
  Scalar := R;
  sc_lit := IZR;
  sc_pi := PI;
  sc_add := Rplus;
  sc_sub := Rminus;
  sc_mul := Rmult;
  sc_div := Rdiv;
  sc_sqrt := sqrt;
  sc_ltb := Rltb;
  sc_leb := Rleb;
  sc_eqb := Reqb;
  sc_ge_not_lt := R_ge_not_lt
|}.

(** ** Vector types of HOOMDMath.h *)

Record Scalar3 {S : ScalarArith} : Type :=
  make_scalar3 { x : Scalar; y : Scalar; z : Scalar }.

Record Scalar4 {S : ScalarArith} : Type :=
  make_scalar4 { x4 : Scalar; y4 : Scalar; z4 : Scalar; w4 : Scalar }.

Arguments make_scalar3 {S} _ _ _.
Arguments make_scalar4 {S} _ _ _ _.

(** The sum and the dot product of two vectors, componentwise as
    HOOMDMath.h defines them; they serve to state how [derivative] relates
    to [implicit_function]. *)
Definition scalar3_plus {S : ScalarArith} (a b : Scalar3) : Scalar3 :=
  make_scalar3 (x a + x b)%sc (y a + y b)%sc (z a + z b)%sc.

Definition dot {S : ScalarArith} (a b : Scalar3) : Scalar :=
  (x a * x b + y a * y b + z a * z b)%sc.

(** ** FlatManifold.cc *)

Module Flat.

Local Open Scope string_scope.
Local Open Scope sc_scope.

Section WithScalar.
Context {S : ScalarArith}.

(** The data members of the class.  [m_surf] is assigned only when a token
    matches; [None] stands for "left as the class declaration leaves it". *)
Record FlatManifold : Type := {
  xy : bool;
  xz : bool;
  yz : bool;
  m_surf : option Z;
  m_shift : Scalar
}.

(** Modelled from the spec: FlatManifold.h is not among the sources, so the
    values of the three axis flags before the constructor body runs are
    taken from the spec's design notes (section 9: an unrecognized token
    "silently leaves all three axis flags false"). *)
Definition declared (shift : Scalar) : FlatManifold :=
  {| xy := false; xz := false; yz := false; m_surf := None; m_shift := shift |}.

(** [FlatManifold::FlatManifold(sysdef, surf, shift)]; [==] on
    [std::string] is exact, byte-wise comparison. *)
Definition construct (surf : string) (shift : Scalar) : FlatManifold :=
  let this := declared shift in
  if (surf =? "XY") || (surf =? "YX") then
    {| xy := true; xz := xz this; yz := yz this;
       m_surf := Some 4%Z; m_shift := m_shift this |}
  else if (surf =? "XZ") || (surf =? "ZX") then
    {| xy := xy this; xz := true; yz := yz this;
       m_surf := Some 5%Z; m_shift := m_shift this |}
  else if (surf =? "YZ") || (surf =? "ZY") then
    {| xy := xy this; xz := xz this; yz := true;
       m_surf := Some 6%Z; m_shift := m_shift this |}
  else this.

(** [Scalar FlatManifold::implicit_function(Scalar3 point)] *)
Definition implicit_function (this : FlatManifold) (point : Scalar3) : Scalar :=
  if xy this then z point - m_shift this
  else if xz this then y point - m_shift this
  else x point - m_shift this.

(** [Scalar3 FlatManifold::derivative(Scalar3 point)] *)
Definition derivative (this : FlatManifold) (point : Scalar3) : Scalar3 :=
  if xy this then make_scalar3 #0 #0 #1
  else if xz this then make_scalar3 #0 #1 #0
  else make_scalar3 #1 #0 #0.

(** *** Vocabulary of the specification *)

(** The three coordinate planes and the axis normal to each. *)
Inductive plane : Type := XY | XZ | YZ.
Inductive axis : Type := Xaxis | Yaxis | Zaxis.

Definition plane_name (p : plane) : string :=
  match p with XY => "XY" | XZ => "XZ" | YZ => "YZ" end.

Definition normal_axis (p : plane) : axis :=
  match p with XY => Zaxis | XZ => Yaxis | YZ => Xaxis end.

Definition coordinate (a : axis) (point : Scalar3) : Scalar :=
  match a with Xaxis => x point | Yaxis => y point | Zaxis => z point end.

Definition unit_vector (a : axis) : Scalar3 :=
  match a with
  | Xaxis => make_scalar3 #1 #0 #0
  | Yaxis => make_scalar3 #0 #1 #0
  | Zaxis => make_scalar3 #0 #0 #1
  end.

(** The six tokens the constructor compares against, with their planes. *)
Definition tokens : list string := ["XY"; "YX"; "XZ"; "ZX"; "YZ"; "ZY"].

Definition recognized (surf : string) : option plane :=
  if (surf =? "XY") || (surf =? "YX") then Some XY
  else if (surf =? "XZ") || (surf =? "ZX") then Some XZ
  else if (surf =? "YZ") || (surf =? "ZY") then Some YZ
  else None.

(** The plane an object was configured for, read off its flags and
    [m_surf] (4, 5, 6 for XY, XZ, YZ). *)
Definition configured_plane (this : FlatManifold) : option plane :=
  match xy this, xz this, yz this, m_surf this with
  | true, false, false, Some 4%Z => Some XY
  | false, true, false, Some 5%Z => Some XZ
  | false, false, true, Some 6%Z => Some YZ
  | _, _, _, _ => None
  end.

(** Letter-case variants: two tokens that agree once every lower-case
    letter is replaced by its upper-case form. *)
Definition to_upper (c : ascii) : ascii :=
  let n := nat_of_ascii c in
  if ((97 <=? n) && (n <=? 122))%nat then ascii_of_nat (n - 32) else c.

Definition case_variant (s t : string) : Prop :=
  map to_upper (list_ascii_of_string s) = map to_upper (list_ascii_of_string t).

(** [tok] is a permutation of a letter-case variant of the name of [p]. *)
Definition selects_insensitive (tok : string) (p : plane) : Prop :=
  exists v, case_variant v (plane_name p)
            /\ Permutation (list_ascii_of_string tok) (list_ascii_of_string v).

(** [tok] is a permutation of the (upper-case) name of [p]. *)
Definition selects (tok : string) (p : plane) : Prop :=
  Permutation (list_ascii_of_string tok) (list_ascii_of_string (plane_name p)).

End WithScalar.
End Flat.

(** ** EvaluatorVanDerWaals.h *)

Module VanDerWaals.

Local Open Scope sc_scope.

Section WithScalar.
Context {S : ScalarArith}.

(** [typedef Scalar4 param_type]: the components are a, b, alpha and T. *)
Definition param_type : Type := Scalar4.

(** The protected data members.  [rik_sq] is not set by the constructor,
    only by [setRik]. *)
Record EvaluatorVanDerWaals : Type := {
  rij_sq : Scalar;
  rik_sq : option Scalar;
  rcutsq : Scalar;
  a : Scalar;
  b : Scalar;
  alpha : Scalar;
  T : Scalar
}.

(** [EvaluatorVanDerWaals(_rij_sq, _rcutsq, _params)] *)
Definition construct (_rij_sq _rcutsq : Scalar) (_params : param_type)
  : EvaluatorVanDerWaals :=
  {| rij_sq := _rij_sq; rik_sq := None; rcutsq := _rcutsq;
     a := x4 _params; b := y4 _params; alpha := z4 _params; T := w4 _params |}.

Definition setRij (this : EvaluatorVanDerWaals) (rsq : Scalar) : EvaluatorVanDerWaals :=
  {| rij_sq := rsq; rik_sq := rik_sq this; rcutsq := rcutsq this;
     a := a this; b := b this; alpha := alpha this; T := T this |}.

Definition setRik (this : EvaluatorVanDerWaals) (rsq : Scalar) : EvaluatorVanDerWaals :=
  {| rij_sq := rij_sq this; rik_sq := Some rsq; rcutsq := rcutsq this;
     a := a this; b := b this; alpha := alpha this; T := T this |}.

Definition hasPerParticleEnergy : bool := true.
Definition needsChi : bool := false.
Definition hasIkForce : bool := false.
Definition needsAngle : bool := false.

Definition areInteractive (this : EvaluatorVanDerWaals) : bool := true.

(** [bool evalRepulsiveAndAttractive(Scalar& fR, Scalar& fA)]: the two
    references are not written; the result is the cutoff test. *)
Definition evalRepulsiveAndAttractive (this : EvaluatorVanDerWaals)
    (fR fA : Scalar) : bool * (Scalar * Scalar) :=
  (rij_sq this <? rcutsq this, (fR, fA)).

(** [void evalChi(Scalar& chi)] *)
Definition evalChi (this : EvaluatorVanDerWaals) (chi : Scalar) : Scalar := chi.

(** [void evalPhi(Scalar& phi)]: the result is the value of [phi] on return. *)
Definition evalPhi (this : EvaluatorVanDerWaals) (phi : Scalar) : Scalar :=
  if rij_sq this <? rcutsq this then
    let norm := #15 / (#2 * sc_pi) in
    let rcut := sc_sqrt (rcutsq this) in
    let norm := norm / (rcutsq this * rcut) in
    let rij := sc_sqrt (rij_sq this) in
    let fac := #1 - rij / rcut in
    phi + fac * fac * norm
  else phi.

(** The three reference arguments of [evalForceij]. *)
Record ForceijOut : Type := {
  bij : Scalar;
  force_divr : Scalar;
  potential_eng : Scalar
}.

(** [void evalForceij(fR, fA, chi, phi, Scalar& bij, Scalar& force_divr,
    Scalar& potential_eng)]: [out] holds the three referenced variables on
    entry, the result holds them on return. *)
Definition evalForceij (this : EvaluatorVanDerWaals)
    (fR fA chi phi : Scalar) (out : ForceijOut) : ForceijOut :=
  if rij_sq this <? rcutsq this then
    let rho_i := phi in
    let norm := #15 / (#2 * sc_pi) in
    let rcut := sc_sqrt (rcutsq this) in
    let norm := norm / (rcutsq this * rcut) in
    let rij := sc_sqrt (rij_sq this) in
    let fac := #1 - rij / rcut in
    let rho_i := rho_i + norm in
    {| bij := bij out;
       force_divr :=
         (T this / rho_i / (#1 - b this * rho_i) - a this
          - alpha this * a this * b this * rho_i)
         * #2 * norm * fac / rcut / rij;
       potential_eng := potential_eng out |}
  else out.

(** The weight [norm] that [evalPhi], [evalForceij] and [evalSelfEnergy]
    each compute in their first three statements. *)
Definition self_weight (this : EvaluatorVanDerWaals) : Scalar :=
  let norm := #15 / (#2 * sc_pi) in
  let rcut := sc_sqrt (rcutsq this) in
  norm / (rcutsq this * rcut).

(** [logf] of <math.h> is not an operation of [ScalarArith]; the method
    below takes it as a parameter. *)
Variable logf : Scalar -> Scalar.

(** [void evalSelfEnergy(Scalar& energy, Scalar phi)], with [logf] made a
    parameter: [energy] is the referenced variable on entry, the result is
    its value on return.  The literal [Scalar(0.5)] is written [#1 / #2],
    which is 0.5 exactly in binary64 and over the reals. *)
Definition evalSelfEnergy (this : EvaluatorVanDerWaals) (energy phi : Scalar)
  : Scalar :=
  let rho_i := phi in
  let norm := #15 / (#2 * sc_pi) in
  let rcut := sc_sqrt (rcutsq this) in
  let norm := norm / (rcutsq this * rcut) in
  let rho_i := rho_i + norm in
  T this * logf (b this * rho_i / (#1 - b this * rho_i)) - a this * rho_i
  - (#1 / #2) * alpha this * a this * b this * rho_i * rho_i.

(** [bool evalForceik(...)]: no ik force; the references are not written. *)
Definition evalForceik (this : EvaluatorVanDerWaals)
    (fR fA chi bij : Scalar) (force_divr_ij force_divr_ik : Scalar3)
  : bool * (Scalar3 * Scalar3) :=
  (false, (force_divr_ij, force_divr_ik)).

(** First pass of the orchestrator for one particle: the accumulator is
    handed to [evalPhi] of each neighbour's evaluator in turn. *)
Definition accumulatePhi (neighbours : list EvaluatorVanDerWaals) (phi0 : Scalar)
  : Scalar :=
  fold_left (fun phi ev => evalPhi ev phi) neighbours phi0.

End WithScalar.

(** The increment of the density as the specification writes it, over the
    reals: g = (15/(2 pi rcut^3)) (1 - rij/rcut)^2. *)
Definition density_increment (rij_sq rcutsq : R) : R :=
  (15 / (2 * PI * sqrt rcutsq ^ 3) * (1 - sqrt rij_sq / sqrt rcutsq) ^ 2)%R.

(** Sample inputs.  A pair at squared distance [rsq] with squared cutoff 4
    and parameters a = b = alpha = T = 1, in the double-precision build and
    in exact arithmetic; the reference arguments of [evalForceij] with
    [potential_eng] holding [e]. *)
Definition pair_at (rsq : Z) : EvaluatorVanDerWaals (S := Double) :=
  construct #rsq #4 (make_scalar4 #1 #1 #1 #1).

Definition exact_pair_at (rsq : Z) : EvaluatorVanDerWaals (S := Exact) :=
  construct #rsq #4 (make_scalar4 #1 #1 #1 #1).

Definition out_with (e : Z) : ForceijOut (S := Double) :=
  {| bij := #0; force_divr := #0; potential_eng := #e |}.

(** A pair whose squared distance is not a number. *)
Definition pair_at_nan : EvaluatorVanDerWaals (S := Double) :=
  construct (S := Double) PrimFloat.nan #4 (make_scalar4 #1 #1 #1 #1).

End VanDerWaals.

(** ** ActiveForceComputeGPU.cc *)

Module ActiveForceGPU.

Local Open Scope string_scope.
Local Open Scope sc_scope.

(** What a C++ [throw] carries. *)
Inductive exn : Type :=
| runtime_error (what : string).

Section WithScalar.
Context {S : ScalarArith}.

(** *** The collaborators, as far as this file reads them *)

Record ExecutionConfiguration : Type := {
  isCUDAEnabled : bool;
  isCUDAErrorCheckingEnabled : bool
}.

Record ParticleData : Type := {
  getN : nat;
  getPositions : list Scalar4;
  getOrientationArray : list Scalar4;
  getRTags : list nat
}.

Record SystemDefinition : Type := {
  getParticleData : ParticleData;
  getNDimensions : Z;
  getNumBodies : nat                 (* getRigidData()->getNumBodies() *)
}.

(** The state behind [shouldCompute] belongs to the base class [Compute];
    its type and the predicate itself are left open. *)
Variable Sched : Type.
Variable shouldCompute : Sched -> Z -> bool * Sched.

(** The members inherited from [ActiveForceCompute] and its bases. *)
Record ActiveForceCompute : Type := {
  m_sysdef : SystemDefinition;
  m_pdata : ParticleData;
  m_exec_conf : ExecutionConfiguration;
  m_sched : Sched;
  m_force : list Scalar4;
  m_activeVec : list Scalar3;
  m_activeMag : list Scalar;
  m_orientationLink : bool;
  m_rotationDiff : Scalar;
  m_P : Scalar3;
  m_rx : Scalar;
  m_ry : Scalar;
  m_rz : Scalar;
  m_seed : Z;
  m_deltaT : Scalar
}.

Record ActiveForceComputeGPU : Type := {
  base : ActiveForceCompute;
  m_block_size : Z
}.

(** The arguments of the constructor. *)
Record ctor_args : Type := {
  arg_sysdef : SystemDefinition;
  arg_seed : Z;
  arg_f_lst : list (Scalar * Scalar * Scalar);
  arg_orientation_link : bool;
  arg_rotation_diff : Scalar;
  arg_P : Scalar3;
  arg_rx : Scalar;
  arg_ry : Scalar;
  arg_rz : Scalar
}.

(** The base-class constructor (ActiveForceCompute.cc is not among the
    sources): it either throws or yields the inherited members. *)
Variable ActiveForceCompute_construct : ctor_args -> exn + ActiveForceCompute.

(** [ActiveForceComputeGPU::ActiveForceComputeGPU(...)]: the base class is
    constructed first, [m_block_size] is set to 256, then the body runs. *)
Definition construct (args : ctor_args) : exn + ActiveForceComputeGPU :=
  match ActiveForceCompute_construct args with
  | inl e => inl e
  | inr b =>
      let this := {| base := b; m_block_size := 256 |} in
      if negb (isCUDAEnabled (m_exec_conf (base this))) then
        inl (runtime_error "Error initializing ActiveForceComputeGPU")
      else inr this
  end.

(** *** Device kernels *)

(** The two kernels of ActiveForceComputeGPU.cu that update the active
    state are left open; each returns the new contents of the arrays it
    receives through a handle opened for writing. *)
Variable gpu_compute_active_force_set_constraints :
  forall (N : nat) (d_rtag : list nat) (d_pos d_force : list Scalar4)
         (d_actVec : list Scalar3) (d_actMag : list Scalar)
         (P : Scalar3) (rx ry rz : Scalar) (block_size : Z),
    list Scalar4 * list Scalar3 * list Scalar.

Variable gpu_compute_active_force_rotational_diffusion :
  forall (N : nat) (d_rtag : list nat) (d_pos d_force : list Scalar4)
         (d_actVec : list Scalar3) (d_actMag : list Scalar)
         (P : Scalar3) (rx ry rz : Scalar) (is2D : bool)
         (rotationDiff deltaT : Scalar) (timestep seed : Z) (block_size : Z),
    list Scalar4 * list Scalar3.

(** Rotation of a vector by a quaternion (VectorMath.h). *)
Variable rotate : Scalar4 -> Scalar3 -> Scalar3.

(** The force of one particle: its direction, turned by the particle's
    orientation when orientation linking is on, times its magnitude. *)
Definition active_force (orientationLink : bool) (q : Scalar4)
    (dir : Scalar3) (mag : Scalar) : Scalar3 :=
  let d := if orientationLink then rotate q dir else dir in
  make_scalar3 (x d * mag) (y d * mag) (z d * mag).

(** Writing a force into a slot of the force buffer sets its x, y and z;
    the fourth component is not part of the force. *)
Definition store_force (f : Scalar3) (slot : Scalar4) : Scalar4 :=
  make_scalar4 (x f) (y f) (z f) (w4 slot).

(** The work of the thread of one tag; a thread whose reads fall outside
    an array writes nothing. *)
Definition set_force_of_tag (d_rtag : list nat) (d_orientation : list Scalar4)
    (d_actVec : list Scalar3) (d_actMag : list Scalar) (orientationLink : bool)
    (tag : nat) : option (nat * Scalar3) :=
  match d_rtag !! tag, d_actVec !! tag, d_actMag !! tag with
  | Some idx, Some dir, Some mag =>
      match d_orientation !! idx with
      | Some q => Some (idx, active_force orientationLink q dir mag)
      | None => None
      end
  | _, _, _ => None
  end.

Definition apply_write (d_force : list Scalar4) (w : option (nat * Scalar3))
  : list Scalar4 :=
  match w with
  | Some (idx, f) => alter (store_force f) idx d_force
  | None => d_force
  end.

(** What a write does to the slot [i] of the force buffer. *)
Definition slot_write (i : nat) (slot : Scalar4) (w : option (nat * Scalar3))
  : Scalar4 :=
  match w with
  | Some (idx, f) => if decide (idx = i) then store_force f slot else slot
  | None => slot
  end.

(** Modelled from the spec: the kernel launched by [setForces],
    [gpu_compute_active_force_set_forces] of ActiveForceComputeGPU.cu, is
    not among the sources.  Section 4.4, step 3: "for every live particle
    (resolved through the reverse-tag mapping ...) write force =
    orientation-transformed direction x magnitude into the shared force
    buffer".  The threads are run one tag after the other. *)
Definition gpu_compute_active_force_set_forces
    (N : nat) (d_rtag : list nat) (d_force d_orientation : list Scalar4)
    (d_actVec : list Scalar3) (d_actMag : list Scalar)
    (P : Scalar3) (rx ry rz : Scalar) (orientationLink : bool) (block_size : Z)
  : list Scalar4 :=
  fold_left
    (fun force tag =>
       apply_write force
         (set_force_of_tag d_rtag d_orientation d_actVec d_actMag orientationLink tag))
    (seq 0 N) d_force.

(** The pending error that [CHECK_CUDA_ERROR] finds, if any; the CUDA
    runtime is outside the sources. *)
Variable cudaGetLastError : ActiveForceComputeGPU -> option exn.

(** *** Methods *)

(** The methods that make up the per-timestep pipeline; each call is
    recorded so that the order of the calls can be observed. *)
Inductive step : Type :=
| call_setConstraint
| call_rotationalDiffusion (timestep : Z)
| call_setForces.

Record machine : Type := {
  this : ActiveForceComputeGPU;
  calls : list step
}.

(** Computations on the object that may throw. *)
Definition M (A : Type) : Type := machine -> (exn + A) * machine.

Definition ret {A} (v : A) : M A := fun m => (inr v, m).

Definition bind {A B} (c : M A) (k : A -> M B) : M B :=
  fun m =>
    match c m with
    | (inl e, m') => (inl e, m')
    | (inr v, m') => k v m'
    end.

Definition throw {A} (e : exn) : M A := fun m => (inl e, m).

Definition get : M ActiveForceComputeGPU := fun m => (inr (this m), m).

Definition put (o : ActiveForceComputeGPU) : M unit :=
  fun m => (inr tt, {| this := o; calls := calls m |}).

Definition enter (s : step) : M unit :=
  fun m => (inr tt, {| this := this m; calls := calls m ++ [s] |}).

Declare Scope M_scope.
Delimit Scope M_scope with M.
Notation "v <~ c ;; k" := (bind c (fun v => k))
  (at level 100, c at next level, right associativity) : M_scope.
Notation "c ;; k" := (bind c (fun _ => k))
  (at level 100, right associativity) : M_scope.
Local Open Scope M_scope.

Definition when (b : bool) (c : M unit) : M unit := if b then c else ret tt.

(** Replacing the three arrays the kernels write. *)
Definition with_arrays (o : ActiveForceComputeGPU) (force : list Scalar4)
    (actVec : list Scalar3) (actMag : list Scalar) : ActiveForceComputeGPU :=
  let b := base o in
  {| base := {| m_sysdef := m_sysdef b; m_pdata := m_pdata b;
                m_exec_conf := m_exec_conf b; m_sched := m_sched b;
                m_force := force; m_activeVec := actVec; m_activeMag := actMag;
                m_orientationLink := m_orientationLink b;
                m_rotationDiff := m_rotationDiff b; m_P := m_P b;
                m_rx := m_rx b; m_ry := m_ry b; m_rz := m_rz b;
                m_seed := m_seed b; m_deltaT := m_deltaT b |};
     m_block_size := m_block_size o |}.

(** The same object with another value of [m_orientationLink]. *)
Definition with_orientationLink (o : ActiveForceComputeGPU) (link : bool)
  : ActiveForceComputeGPU :=
  let b := base o in
  {| base := {| m_sysdef := m_sysdef b; m_pdata := m_pdata b;
                m_exec_conf := m_exec_conf b; m_sched := m_sched b;
                m_force := m_force b; m_activeVec := m_activeVec b;
                m_activeMag := m_activeMag b;
                m_orientationLink := link;
                m_rotationDiff := m_rotationDiff b; m_P := m_P b;
                m_rx := m_rx b; m_ry := m_ry b; m_rz := m_rz b;
                m_seed := m_seed b; m_deltaT := m_deltaT b |};
     m_block_size := m_block_size o |}.

Definition with_sched (o : ActiveForceComputeGPU) (s : Sched) : ActiveForceComputeGPU :=
  let b := base o in
  {| base := {| m_sysdef := m_sysdef b; m_pdata := m_pdata b;
                m_exec_conf := m_exec_conf b; m_sched := s;
                m_force := m_force b; m_activeVec := m_activeVec b;
                m_activeMag := m_activeMag b;
                m_orientationLink := m_orientationLink b;
                m_rotationDiff := m_rotationDiff b; m_P := m_P b;
                m_rx := m_rx b; m_ry := m_ry b; m_rz := m_rz b;
                m_seed := m_seed b; m_deltaT := m_deltaT b |};
     m_block_size := m_block_size o |}.

(** [void ActiveForceComputeGPU::setForces()] *)
Definition setForces : M unit :=
  enter call_setForces ;;
  o <~ get ;;
  let b := base o in
  let orientationLink :=
    Bool.eqb (m_orientationLink b) true && (0 <? getNumBodies (m_sysdef b))%nat in
  let N := getN (m_pdata b) in
  put (with_arrays o
         (gpu_compute_active_force_set_forces N
            (getRTags (m_pdata b)) (m_force b) (getOrientationArray (m_pdata b))
            (m_activeVec b) (m_activeMag b)
            (m_P b) (m_rx b) (m_ry b) (m_rz b) orientationLink (m_block_size o))
         (m_activeVec b) (m_activeMag b)).

(** [void ActiveForceComputeGPU::rotationalDiffusion(unsigned int timestep)] *)
Definition rotationalDiffusion (timestep : Z) : M unit :=
  enter (call_rotationalDiffusion timestep) ;;
  o <~ get ;;
  let b := base o in
  let is2D := (getNDimensions (m_sysdef b) =? 2)%Z in
  let N := getN (m_pdata b) in
  let '(force, actVec) :=
    gpu_compute_active_force_rotational_diffusion N
      (getRTags (m_pdata b)) (getPositions (m_pdata b)) (m_force b)
      (m_activeVec b) (m_activeMag b)
      (m_P b) (m_rx b) (m_ry b) (m_rz b) is2D
      (m_rotationDiff b) (m_deltaT b) timestep (m_seed b) (m_block_size o) in
  put (with_arrays o force actVec (m_activeMag b)).

(** [void ActiveForceComputeGPU::setConstraint()]; the local
    [EvaluatorConstraintEllipsoid] it builds is not used by the method. *)
Definition setConstraint : M unit :=
  enter call_setConstraint ;;
  o <~ get ;;
  let b := base o in
  let N := getN (m_pdata b) in
  let '(force, actVec, actMag) :=
    gpu_compute_active_force_set_constraints N
      (getRTags (m_pdata b)) (getPositions (m_pdata b)) (m_force b)
      (m_activeVec b) (m_activeMag b)
      (m_P b) (m_rx b) (m_ry b) (m_rz b) (m_block_size o) in
  put (with_arrays o force actVec actMag).

(** The call [shouldCompute(timestep)] on the object. *)
Definition call_shouldCompute (timestep : Z) : M bool :=
  o <~ get ;;
  let '(r, s) := shouldCompute (m_sched (base o)) timestep in
  put (with_sched o s) ;;
  ret r.

(** [CHECK_CUDA_ERROR()] throws when the runtime reports an error. *)
Definition CHECK_CUDA_ERROR : M unit :=
  o <~ get ;;
  match cudaGetLastError o with
  | Some e => throw e
  | None => ret tt
  end.

(** [void ActiveForceComputeGPU::computeForces(unsigned int timestep)];
    the profiler calls only write to the profile and are left out. *)
Definition computeForces (timestep : Z) : M unit :=
  go <~ call_shouldCompute timestep ;;
  when go
    (o <~ get ;;
     when (m_rx (base o) !=? #0) setConstraint ;;
     o <~ get ;;
     when (m_rotationDiff (base o) !=? #0) (rotationalDiffusion timestep) ;;
     setForces) ;;
  o <~ get ;;
  when (isCUDAErrorCheckingEnabled (m_exec_conf (base o))) CHECK_CUDA_ERROR.

(** Running a method on an object, with an empty record of calls. *)
Definition run {A} (c : M A) (o : ActiveForceComputeGPU) : (exn + A) * machine :=
  c {| this := o; calls := [] |}.

(** The object after the call, and the calls made. *)
Definition after {A} (c : M A) (o : ActiveForceComputeGPU) : ActiveForceComputeGPU :=
  this (snd (run c o)).

Definition steps {A} (c : M A) (o : ActiveForceComputeGPU) : list step :=
  calls (snd (run c o)).

(** What the specification calls the pipeline of a timestep. *)
Definition pipeline (o : ActiveForceComputeGPU) (timestep : Z) : list step :=
  (if m_rx (base o) !=? #0 then [call_setConstraint] else [])
  ++ (if m_rotationDiff (base o) !=? #0 then [call_rotationalDiffusion timestep] else [])
  ++ [call_setForces].

End WithScalar.

(** Sample inputs, in the double-precision build.  Two particles stored in
    swapped order, no constraint radius, no rotational diffusion; a
    scheduler that computes when the timestep differs from the last one
    computed; kernels that leave the active state alone; no rotation; no
    pending CUDA error. *)
Definition sample_scheduler (last : option Z) (timestep : Z) : bool * option Z :=
  match last with
  | Some t => if (t =? timestep)%Z then (false, last) else (true, Some timestep)
  | None => (true, Some timestep)
  end.

Definition sample_pdata : ParticleData (S := Double) :=
  {| getN := 2;
     getPositions := [make_scalar4 #0 #0 #0 #0; make_scalar4 #1 #1 #1 #0];
     getOrientationArray := [make_scalar4 #1 #0 #0 #0; make_scalar4 #1 #0 #0 #0];
     getRTags := [1%nat; 0%nat] |}.

Definition sample_base (gpu : bool) : ActiveForceCompute (S := Double) (option Z) :=
  {| m_sysdef := {| getParticleData := sample_pdata;
                    getNDimensions := 3; getNumBodies := 0 |};
     m_pdata := sample_pdata;
     m_exec_conf := {| isCUDAEnabled := gpu; isCUDAErrorCheckingEnabled := true |};
     m_sched := None;
     m_force := [make_scalar4 #9 #9 #9 #0; make_scalar4 #9 #9 #9 #0];
     m_activeVec := [make_scalar3 #1 #0 #0; make_scalar3 #0 #1 #0];
     m_activeMag := [#2; #3];
     m_orientationLink := true;
     m_rotationDiff := #0;
     m_P := make_scalar3 #0 #0 #0;
     m_rx := #0; m_ry := #0; m_rz := #0;
     m_seed := 7;
     m_deltaT := #1 |}.

Definition sample_compute : ActiveForceComputeGPU (S := Double) (option Z) :=
  {| base := sample_base true; m_block_size := 256 |}.

(** The same object with a constraint radius and a diffusion rate of 1. *)
Definition sample_constrained : ActiveForceComputeGPU (S := Double) (option Z) :=
  let b := sample_base true in
  {| base := {| m_sysdef := m_sysdef b; m_pdata := m_pdata b;
                m_exec_conf := m_exec_conf b; m_sched := m_sched b;
                m_force := m_force b; m_activeVec := m_activeVec b;
                m_activeMag := m_activeMag b;
                m_orientationLink := m_orientationLink b;
                m_rotationDiff := #1; m_P := m_P b;
                m_rx := #1; m_ry := #1; m_rz := #1;
                m_seed := m_seed b; m_deltaT := m_deltaT b |};
     m_block_size := 256 |}.

(** Sample kernels: the constraint kernel doubles the magnitudes, the
    diffusion kernel swaps the x and y components of the directions. *)
Definition sample_set_constraints
    (N : nat) (d_rtag : list nat) (d_pos d_force : list (Scalar4 (S := Double)))
    (d_actVec : list (Scalar3 (S := Double))) (d_actMag : list float)
    (P : Scalar3 (S := Double)) (rx ry rz : float) (block_size : Z)
  : list (Scalar4 (S := Double)) * list (Scalar3 (S := Double)) * list float :=
  (d_force, d_actVec, map (fun m => PrimFloat.mul (float_of_Z 2) m) d_actMag).

Definition sample_rotational_diffusion
    (N : nat) (d_rtag : list nat) (d_pos d_force : list (Scalar4 (S := Double)))
    (d_actVec : list (Scalar3 (S := Double))) (d_actMag : list float)
    (P : Scalar3 (S := Double)) (rx ry rz : float) (is2D : bool)
    (rotationDiff deltaT : float) (timestep seed block_size : Z)
  : list (Scalar4 (S := Double)) * list (Scalar3 (S := Double)) :=
  (d_force, map (fun v => make_scalar3 (y v) (x v) (z v)) d_actVec).

Definition sample_args : ctor_args (S := Double) :=
  {| arg_sysdef := m_sysdef (sample_base false);
     arg_seed := 7; arg_f_lst := [(#2, #0, #0); (#0, #3, #0)];
     arg_orientation_link := true; arg_rotation_diff := #0;
     arg_P := make_scalar3 #0 #0 #0; arg_rx := #0; arg_ry := #0; arg_rz := #0 |}.

Definition sample_base_construct (args : ctor_args (S := Double))
  : exn + ActiveForceCompute (S := Double) (option Z) :=
  inr (sample_base false).

Definition sample_computeForces (timestep : Z) : M (S := Double) (option Z) unit :=
  computeForces sample_scheduler
    (fun _ _ _ force actVec actMag _ _ _ _ _ => (force, actVec, actMag))
    (fun _ _ _ force actVec _ _ _ _ _ _ _ _ _ _ _ => (force, actVec))
    (fun _ v => v)
    (fun _ => None)
    timestep.

End ActiveForceGPU.

(** ** mkl_single_interface.h *)

Module DFFT.

(** [#define FFT1D_SUPPORTS_THREADS] *)
Definition FFT1D_SUPPORTS_THREADS : bool := true.

(** The header declares its functions and defines none: the bodies
    (the MKL adapter) are not among the sources.  It declares
    [void dfft_local_1dfft(cpx_t *in, cpx_t *out, plan_t p, int dir)] and
    notes for plan creation that the direction is 0 (forward) or 1
    (inverse). *)

(** Modelled from the spec: the header declares no error type.  Section 7
    names the failures of the FFT backend: PlanCreationError (which
    carries a vendor-specific diagnostic code), AllocationError and
    DirectionMismatchError. *)
Inductive fft_error : Type :=
| PlanCreationError (vendor_code : Z)
| AllocationError
| DirectionMismatchError.

(** Modelled from the spec: [plan_t] is MKL's descriptor handle, opaque
    in the header.  Section 4.1: a plan is built for [batch_count]
    transforms of length [dims], with strides and distances for input and
    output, "and a direction flag"; it has a "configured direction".  The
    fields follow the parameters of [dfft_create_1d_plan]. *)
Record plan_t : Type := {
  plan_dim : Z;
  plan_howmany : Z;
  plan_istride : Z;
  plan_idist : Z;
  plan_ostride : Z;
  plan_odist : Z;
  plan_dir : Z
}.

Section Backend.

(** [cpx_t] is MKL's single-precision complex number; a buffer is the
    sequence of samples behind a [cpx_t *]. *)
Variable cpx_t : Type.

(** The vendor library: whether it lets one plan run in both directions,
    and the transform it computes for a plan and a direction from the
    input buffer and the previous content of the output buffer. *)
Variable supports_direction_reuse : bool.
Variable vendor_transform : plan_t -> Z -> list cpx_t -> list cpx_t -> list cpx_t.

(** Modelled from the spec: the body of [dfft_local_1dfft] is not among
    the sources (the header only declares it).  Section 4.1, execute:
    "direction must match or be compatible with the plan's configured
    direction (... a single plan to be reused for both forward and inverse
    when the vendor library supports it - if not supported, fails with
    DirectionMismatchError)".  The result is what the caller observes of
    the call: the failure, or the new content of the output buffer. *)
Definition dfft_local_1dfft (input output : list cpx_t) (p : plan_t) (dir : Z)
  : fft_error + list cpx_t :=
  if (dir =? plan_dir p)%Z || supports_direction_reuse
  then inr (vendor_transform p dir input output)
  else inl DirectionMismatchError.

End Backend.

(** Sample input: a forward plan for eight transforms of length 16. *)
Definition sample_plan : plan_t :=
  {| plan_dim := 16; plan_howmany := 8; plan_istride := 1; plan_idist := 16;
     plan_ostride := 1; plan_odist := 16; plan_dir := 0 |}.

End DFFT.

(** * Properties *)

(** ** Flat manifold *)

Section FlatProperties.
Import Flat.
Local Open Scope string_scope.
Local Open Scope sc_scope.

Lemma recognized_tokens (surf : string) (p : plane) :
  recognized surf = Some p ->
  surf = plane_name p \/ (p = XY /\ surf = "YX") \/ (p = XZ /\ surf = "ZX")
  \/ (p = YZ /\ surf = "ZY").
Proof.
  unfold recognized.
  destruct (String.eqb_spec surf "XY"), (String.eqb_spec surf "YX"),
    (String.eqb_spec surf "XZ"), (String.eqb_spec surf "ZX"),
    (String.eqb_spec surf "YZ"), (String.eqb_spec surf "ZY");
    simpl; intros H; inversion H; subst; simpl; try discriminate; auto 6.
Qed.

Lemma recognized_None (surf : string) :
  recognized surf = None <-> ~ In surf tokens.
Proof.
  unfold recognized, tokens; simpl.
  destruct (String.eqb_spec surf "XY"), (String.eqb_spec surf "YX"),
    (String.eqb_spec surf "XZ"), (String.eqb_spec surf "ZX"),
    (String.eqb_spec surf "YZ"), (String.eqb_spec surf "ZY");
    simpl; split; intros H; try discriminate; try reflexivity;
    try (exfalso; apply H; auto 7; fail);
    intros [?|[?|[?|[?|[?|[?|[]]]]]]]; congruence.
Qed.

Lemma construct_recognized {S : ScalarArith} (surf : string) (shift : Scalar) :
  construct surf shift =
  match recognized surf with
  | Some XY => {| xy := true; xz := false; yz := false;
                  m_surf := Some 4%Z; m_shift := shift |}
  | Some XZ => {| xy := false; xz := true; yz := false;
                  m_surf := Some 5%Z; m_shift := shift |}
  | Some YZ => {| xy := false; xz := false; yz := true;
                  m_surf := Some 6%Z; m_shift := shift |}
  | None => declared shift
  end.
Proof.
  unfold construct, recognized.
  destruct ((surf =? "XY") || (surf =? "YX")); [reflexivity|].
  destruct ((surf =? "XZ") || (surf =? "ZX")); [reflexivity|].
  destruct ((surf =? "YZ") || (surf =? "ZY")); reflexivity.
Qed.

Lemma configured_recognized {S : ScalarArith} (surf : string) (shift : Scalar) :
  configured_plane (construct surf shift) = recognized surf.
Proof.
  rewrite construct_recognized.
  destruct (recognized surf) as [[]|]; reflexivity.
Qed.

(** C2.  For a Flat manifold built from a recognized axis selector,
    [implicit_function] returns the point's coordinate along the normal
    axis minus the shift and [derivative] returns the unit vector of that
    axis, whatever the point.  With selector "XY" and shift 2.0, the point
    (5,5,7) has implicit value 5.0 and gradient (0,0,1), in binary64 and in
    exact arithmetic alike. *)
Theorem flat_value_and_gradient :
  (forall (S : ScalarArith) (surf : string) (shift : Scalar) (p : plane)
          (point : Scalar3),
      recognized surf = Some p ->
      implicit_function (construct surf shift) point
        = coordinate (normal_axis p) point - shift
      /\ derivative (construct surf shift) point = unit_vector (normal_axis p))
  /\ (implicit_function (S := Double) (construct "XY" #2) (make_scalar3 #5 #5 #7) = #5
      /\ derivative (S := Double) (construct "XY" #2) (make_scalar3 #5 #5 #7)
         = make_scalar3 #0 #0 #1)
  /\ (implicit_function (S := Exact) (construct "XY" #2) (make_scalar3 #5 #5 #7) = #5
      /\ derivative (S := Exact) (construct "XY" #2) (make_scalar3 #5 #5 #7)
         = make_scalar3 #0 #0 #1).
Proof.
  split; [|split].
  - intros S surf shift p point H.
    rewrite construct_recognized, H.
    destruct p; split; reflexivity.
  - split; vm_compute; reflexivity.
  - split; [|reflexivity].
    unfold implicit_function; simpl. lra.
Qed.

Lemma flat_value_and_gradient_witness :
  recognized "ZX" = Some XZ
  /\ implicit_function (S := Double) (construct "ZX" #3) (make_scalar3 #1 #9 #4)
     = (#9 - #3)%sc
  /\ derivative (S := Double) (construct "ZX" #3) (make_scalar3 #1 #9 #4)
     = make_scalar3 #0 #1 #0.
Proof.
  split; [reflexivity|].
  exact (proj1 flat_value_and_gradient Double "ZX" #3 XZ (make_scalar3 #1 #9 #4)
           eq_refl).
Defined.

Lemma selects_recognized (tok : string) (p : plane) :
  selects tok p <-> recognized tok = Some p.
Proof.
  unfold selects; split.
  - intros H. apply Permutation_sym in H.
    assert (E : tok = string_of_list_ascii (list_ascii_of_string tok))
      by (symmetry; apply string_of_list_ascii_of_string).
    destruct p; simpl in H; apply Permutation_length_2_inv in H;
      destruct H as [H|H]; rewrite H in E; simpl in E; subst tok; reflexivity.
  - intros H. apply recognized_tokens in H.
    destruct H as [H|[[? H]|[[? H]|[? H]]]]; subst.
    + apply Permutation_refl.
    + simpl. apply perm_swap.
    + simpl. apply perm_swap.
    + simpl. apply perm_swap.
Qed.

(** C6, as stated, fails: the token "xy" is a letter-case variant of "XY",
    yet the constructor does not configure the XY plane for it; it sets no
    flag at all, and the object measures the distance along x. *)
Lemma flat_lowercase_not_recognized :
  selects_insensitive "xy" XY
  /\ configured_plane (construct (S := Double) "xy" #2) = None
  /\ implicit_function (S := Double) (construct "xy" #2) (make_scalar3 #5 #5 #7)
     = #3.
Proof.
  split; [|split].
  - exists "xy". split; [reflexivity|apply Permutation_refl].
  - reflexivity.
  - vm_compute; reflexivity.
Qed.

(** C6, amended.  The constructor accepts its axis selector in either
    letter order, in upper case only: it configures a coordinate plane
    exactly for the tokens that are a permutation of the plane's upper-case
    name ("XY", "YX", "XZ", "ZX", "YZ", "ZY"). *)
Theorem flat_selector_order_insensitive :
  forall (S : ScalarArith) (tok : string) (shift : Scalar) (p : plane),
    selects tok p <-> configured_plane (construct tok shift) = Some p.
Proof.
  intros S tok shift p.
  rewrite configured_recognized. apply selects_recognized.
Qed.

(** C10.  For a selector outside the six tokens the constructor sets no
    axis flag, and the object answers as the "YZ" configuration does:
    [implicit_function] returns [point.x - shift] and [derivative] returns
    (1,0,0), for every point. *)
Theorem flat_unrecognized_behaves_as_YZ :
  forall (S : ScalarArith) (surf : string) (shift : Scalar) (point : Scalar3),
    ~ In surf tokens ->
    (xy (construct surf shift) = false
     /\ xz (construct surf shift) = false
     /\ yz (construct surf shift) = false)
    /\ implicit_function (construct surf shift) point = x point - shift
    /\ derivative (construct surf shift) point = make_scalar3 #1 #0 #0
    /\ implicit_function (construct surf shift) point
       = implicit_function (construct "YZ" shift) point
    /\ derivative (construct surf shift) point
       = derivative (construct "YZ" shift) point.
Proof.
  intros S surf shift point H.
  apply recognized_None in H.
  rewrite construct_recognized, H.
  repeat split; reflexivity.
Qed.

Lemma flat_unrecognized_behaves_as_YZ_witness :
  ~ In "xy" tokens
  /\ implicit_function (S := Double) (construct "xy" #2) (make_scalar3 #5 #5 #7)
     = (#5 - #2)%sc
  /\ derivative (S := Double) (construct "xy" #2) (make_scalar3 #5 #5 #7)
     = make_scalar3 #1 #0 #0.
Proof.
  assert (H : ~ In "xy" tokens).
  { apply recognized_None. reflexivity. }
  split; [exact H|].
  pose proof (@flat_unrecognized_behaves_as_YZ Double "xy" #2
                (make_scalar3 #5 #5 #7) H) as [_ [H1 [H2 _]]].
  split; [exact H1|exact H2].
Defined.

End FlatProperties.

(** ** Van der Waals evaluator *)

Section VanDerWaalsProperties.
Import VanDerWaals.
Local Open Scope sc_scope.

(** C1.  At or beyond the cutoff ([rij_sq >= rcutsq]) [evalPhi] returns
    the accumulator it was given and [evalForceij] returns its three
    reference arguments, [force_divr] and [potential_eng] among them, as
    they were: nothing is added to the density, the force or the energy. *)
Theorem beyond_cutoff_no_contribution :
  forall (S : ScalarArith) (ev : EvaluatorVanDerWaals)
         (fR fA chi phi : Scalar) (out : ForceijOut),
    (rij_sq ev >=? rcutsq ev) = true ->
    evalPhi ev phi = phi
    /\ evalForceij ev fR fA chi phi out = out
    /\ force_divr (evalForceij ev fR fA chi phi out) = force_divr out
    /\ potential_eng (evalForceij ev fR fA chi phi out) = potential_eng out.
Proof.
  intros S ev fR fA chi phi out H.
  apply sc_ge_not_lt in H.
  unfold evalPhi, evalForceij. rewrite H. auto.
Qed.

Lemma beyond_cutoff_no_contribution_witness :
  (rij_sq (pair_at 4) >=? rcutsq (pair_at 4)) = true
  /\ evalPhi (pair_at 4) #3 = #3
  /\ evalForceij (pair_at 4) #0 #0 #0 #3 (out_with 0) = out_with 0.
Proof.
  assert (H : (rij_sq (pair_at 4) >=? rcutsq (pair_at 4)) = true)
    by (vm_compute; reflexivity).
  split; [exact H|].
  pose proof (@beyond_cutoff_no_contribution Double (pair_at 4) #0 #0 #0 #3
                (out_with 0) H) as [H1 [H2 _]].
  split; [exact H1|exact H2].
Defined.

Lemma float_7_neq_8 : (#7 : Scalar (ScalarArith := Double)) <> #8.
Proof.
  intros E. apply (f_equal (PrimFloat.eqb (float_of_Z 7))) in E.
  vm_compute in E. discriminate E.
Qed.

(** C3, as stated, fails: for a pair inside the cutoff the value of
    [potential_eng] on return is the value it had on entry, whatever that
    was; the call writes no energy into it. *)
Lemma evalForceij_leaves_potential_eng :
  (rij_sq (pair_at 1) <? rcutsq (pair_at 1)) = true
  /\ potential_eng (evalForceij (pair_at 1) #0 #0 #0 #1 (out_with 7)) = #7
  /\ potential_eng (evalForceij (pair_at 1) #0 #0 #0 #1 (out_with 8)) = #8
  /\ ~ (forall out out' : ForceijOut,
          potential_eng (evalForceij (pair_at 1) #0 #0 #0 #1 out)
          = potential_eng (evalForceij (pair_at 1) #0 #0 #0 #1 out')).
Proof.
  split; [vm_compute; reflexivity|].
  split; [vm_compute; reflexivity|].
  split; [vm_compute; reflexivity|].
  intros H. specialize (H (out_with 7) (out_with 8)).
  vm_compute in H. apply float_7_neq_8. vm_compute. exact H.
Qed.

(** C3, amended.  For a pair inside the cutoff ([rij_sq < rcutsq])
    [evalForceij] writes the radial force coefficient into [force_divr]:
    with [norm] the self weight, [rho = phi + norm] and
    [fac = 1 - rij/rcut], the value
    [(T/rho/(1 - b rho) - a - alpha a b rho) 2 norm fac / rcut / rij],
    whatever [force_divr] held before and whatever [fR], [fA] and [chi]
    are.  It leaves [potential_eng] and [bij] as they were. *)
Theorem evalForceij_within_cutoff :
  forall (S : ScalarArith) (ev : EvaluatorVanDerWaals)
         (fR fA chi phi : Scalar) (out : ForceijOut),
    (rij_sq ev <? rcutsq ev) = true ->
    evalForceij ev fR fA chi phi out
    = {| bij := bij out;
         force_divr :=
           (T ev / (phi + self_weight ev)
              / (#1 - b ev * (phi + self_weight ev))
            - a ev
            - alpha ev * a ev * b ev * (phi + self_weight ev))
           * #2 * self_weight ev
           * (#1 - sc_sqrt (rij_sq ev) / sc_sqrt (rcutsq ev))
           / sc_sqrt (rcutsq ev) / sc_sqrt (rij_sq ev);
         potential_eng := potential_eng out |}.
Proof.
  intros S ev fR fA chi phi out H.
  unfold evalForceij. rewrite H.
  unfold self_weight. reflexivity.
Qed.

Lemma evalForceij_within_cutoff_witness :
  (rij_sq (pair_at 1) <? rcutsq (pair_at 1)) = true
  /\ evalForceij (pair_at 1) #0 #0 #0 #1 (out_with 7)
     = {| bij := #0;
          force_divr :=
            (#1 / (#1 + self_weight (pair_at 1))
               / (#1 - #1 * (#1 + self_weight (pair_at 1)))
             - #1 - #1 * #1 * #1 * (#1 + self_weight (pair_at 1)))
            * #2 * self_weight (pair_at 1)
            * (#1 - sc_sqrt #1 / sc_sqrt #4) / sc_sqrt #4 / sc_sqrt #1;
          potential_eng := #7 |}.
Proof.
  assert (H : (rij_sq (pair_at 1) <? rcutsq (pair_at 1)) = true)
    by (vm_compute; reflexivity).
  split; [exact H|].
  exact (@evalForceij_within_cutoff Double (pair_at 1) #0 #0 #0 #1
           (out_with 7) H).
Defined.

Lemma evalPhi_adds (ev : EvaluatorVanDerWaals (S := Exact)) :
  exists c : R, forall phi : R, evalPhi ev phi = (phi + c)%R.
Proof.
  unfold evalPhi.
  destruct (rij_sq ev <? rcutsq ev).
  - eexists. intros phi. reflexivity.
  - exists 0%R. intros phi. simpl. lra.
Qed.

Lemma evalPhi_commute (e1 e2 : EvaluatorVanDerWaals (S := Exact)) (phi : R) :
  evalPhi e2 (evalPhi e1 phi) = evalPhi e1 (evalPhi e2 phi).
Proof.
  destruct (evalPhi_adds e1) as [c1 H1], (evalPhi_adds e2) as [c2 H2].
  rewrite !H1, !H2. lra.
Qed.

Lemma cube_of_root (r : R) : (r * sqrt r = sqrt r ^ 3 \/ sqrt r = 0)%R.
Proof.
  destruct (Rle_dec 0 r) as [H|H].
  - left. simpl. rewrite Rmult_1_r, <- Rmult_assoc, sqrt_sqrt by exact H.
    reflexivity.
  - right. apply sqrt_neg_0. lra.
Qed.

(** C7, as stated, fails: in the double-precision build the density
    accumulated from zero over three neighbours inside the cutoff depends
    on the order of the [evalPhi] calls; the two totals differ in the last
    digit. *)
Lemma evalPhi_order_matters_in_double :
  Permutation [pair_at 3; pair_at 2; pair_at 1] [pair_at 1; pair_at 2; pair_at 3]
  /\ (rij_sq (pair_at 3) <? rcutsq (pair_at 3)) = true
  /\ (rij_sq (pair_at 2) <? rcutsq (pair_at 2)) = true
  /\ (rij_sq (pair_at 1) <? rcutsq (pair_at 1)) = true
  /\ accumulatePhi [pair_at 3; pair_at 2; pair_at 1] #0
     <> accumulatePhi [pair_at 1; pair_at 2; pair_at 3] #0.
Proof.
  split.
  { apply Permutation_sym.
    apply perm_trans with [pair_at 2; pair_at 3; pair_at 1].
    - apply perm_trans with [pair_at 2; pair_at 1; pair_at 3].
      + apply perm_swap.
      + apply perm_skip. apply perm_swap.
    - apply perm_swap. }
  split; [vm_compute; reflexivity|].
  split; [vm_compute; reflexivity|].
  split; [vm_compute; reflexivity|].
  intros E.
  apply (f_equal
           (PrimFloat.eqb (accumulatePhi [pair_at 3; pair_at 2; pair_at 1] #0)))
    in E.
  vm_compute in E. discriminate E.
Qed.

(** C7, amended.  [evalPhi] is additive.  In every scalar arithmetic a
    call inside the cutoff turns the accumulator [phi] into [phi + g] with
    [g = fac fac norm], where [fac = 1 - rij/rcut] and [norm] is the self
    weight (15/(2 pi))/(rcutsq rcut): a value that depends on [rij_sq] and
    [rcutsq] alone, not on [phi].  Over the reals
    g = (15/(2 pi rcut^3)) (1 - rij/rcut)^2, and the density accumulated
    over a particle's neighbours is the same for every order in which
    [evalPhi] is called on them. *)
Theorem evalPhi_additive :
  (forall (S : ScalarArith) (ev : EvaluatorVanDerWaals) (phi : Scalar),
      (rij_sq ev <? rcutsq ev) = true ->
      evalPhi ev phi
      = phi + (#1 - sc_sqrt (rij_sq ev) / sc_sqrt (rcutsq ev))
              * (#1 - sc_sqrt (rij_sq ev) / sc_sqrt (rcutsq ev))
              * self_weight ev)
  /\ (forall (ev : EvaluatorVanDerWaals (S := Exact)) (phi : R),
         (rij_sq ev < rcutsq ev)%R ->
         evalPhi ev phi = (phi + density_increment (rij_sq ev) (rcutsq ev))%R)
  /\ (forall (neighbours neighbours' : list (EvaluatorVanDerWaals (S := Exact)))
             (phi0 : R),
         Permutation neighbours neighbours' ->
         accumulatePhi neighbours phi0 = accumulatePhi neighbours' phi0).
Proof.
  split; [|split].
  - intros S ev phi H. unfold evalPhi. rewrite H.
    unfold self_weight. reflexivity.
  - intros ev phi H.
    unfold evalPhi, density_increment.
    replace (rij_sq ev <? rcutsq ev) with true
      by (symmetry; apply Rltb_true; exact H).
    simpl sc_add; simpl sc_sub; simpl sc_mul; simpl sc_div; simpl sc_sqrt;
      simpl sc_lit; simpl sc_pi.
    f_equal. unfold Rdiv.
    destruct (cube_of_root (rcutsq ev)) as [E|E].
    + rewrite E, !Rinv_mult. ring.
    + rewrite E, !Rinv_mult, !Rinv_0. simpl. rewrite !Rmult_0_l, !Rinv_0. ring.
  - intros neighbours neighbours' phi0 H. revert phi0.
    unfold accumulatePhi.
    induction H as [|e l l' _ IH|e1 e2 l|l l' l'' _ IH1 _ IH2]; intros phi0; simpl.
    + reflexivity.
    + apply IH.
    + rewrite evalPhi_commute. reflexivity.
    + rewrite IH1. apply IH2.
Qed.

Lemma evalPhi_additive_witness :
  (rij_sq (exact_pair_at 1) < rcutsq (exact_pair_at 1))%R
  /\ evalPhi (exact_pair_at 1) 0%R = (0 + density_increment 1 4)%R
  /\ Permutation [exact_pair_at 1; exact_pair_at 2; exact_pair_at 9]
                 [exact_pair_at 9; exact_pair_at 1; exact_pair_at 2]
  /\ accumulatePhi [exact_pair_at 1; exact_pair_at 2; exact_pair_at 9] 0%R
     = accumulatePhi [exact_pair_at 9; exact_pair_at 1; exact_pair_at 2] 0%R.
Proof.
  assert (H : (rij_sq (exact_pair_at 1) < rcutsq (exact_pair_at 1))%R)
    by (simpl; lra).
  assert (P : Permutation [exact_pair_at 1; exact_pair_at 2; exact_pair_at 9]
                          [exact_pair_at 9; exact_pair_at 1; exact_pair_at 2]).
  { apply Permutation_sym.
    apply (Permutation_cons_append [exact_pair_at 1; exact_pair_at 2]). }
  split; [exact H|].
  split; [exact (proj1 (proj2 evalPhi_additive) (exact_pair_at 1) 0%R H)|].
  split; [exact P|].
  exact (proj2 (proj2 evalPhi_additive) _ _ 0%R P).
Defined.

End VanDerWaalsProperties.

(** ** Active force compute on the GPU *)

Section ActiveForceProperties.
Import ActiveForceGPU.
Local Open Scope string_scope.
Local Open Scope sc_scope.

Context {S : ScalarArith}.
Variable Sched : Type.
Variable shouldCompute : Sched -> Z -> bool * Sched.
Variable base_construct : ctor_args -> exn + ActiveForceCompute Sched.
Variable set_constraints :
  nat -> list nat -> list Scalar4 -> list Scalar4 -> list Scalar3 -> list Scalar ->
  Scalar3 -> Scalar -> Scalar -> Scalar -> Z ->
  list Scalar4 * list Scalar3 * list Scalar.
Variable rotational_diffusion :
  nat -> list nat -> list Scalar4 -> list Scalar4 -> list Scalar3 -> list Scalar ->
  Scalar3 -> Scalar -> Scalar -> Scalar -> bool -> Scalar -> Scalar -> Z -> Z -> Z ->
  list Scalar4 * list Scalar3.
Variable rotate : Scalar4 -> Scalar3 -> Scalar3.
Variable cudaGetLastError : ActiveForceComputeGPU Sched -> option exn.

Local Abbreviation computeForces_ :=
  (computeForces shouldCompute set_constraints rotational_diffusion rotate
     cudaGetLastError).

(** C4.  [computeForces] enters the pipeline only when
    [shouldCompute(timestep)] is true; the calls it then makes are, in this
    order, [setConstraint] if and only if [m_rx != 0],
    [rotationalDiffusion(timestep)] if and only if [m_rotationDiff != 0],
    and last, always, [setForces].  When [shouldCompute] is false none of
    the three is called. *)
Theorem computeForces_pipeline :
  forall (o : ActiveForceComputeGPU Sched) (timestep : Z),
    steps (computeForces_ timestep) o
    = if fst (shouldCompute (m_sched (base o)) timestep)
      then pipeline o timestep
      else [].
Proof.
  intros o timestep.
  unfold steps, run, computeForces, call_shouldCompute, pipeline, bind, get.
  simpl.
  destruct (shouldCompute (m_sched (base o)) timestep) as [go s]; simpl.
  destruct go; simpl.
  - unfold setConstraint, rotationalDiffusion, setForces, bind, get; simpl.
    destruct (m_rx (base o) !=? #0); simpl;
      [destruct (set_constraints _ _ _ _ _ _ _ _ _ _ _) as [[f v] g]; simpl|];
      (destruct (m_rotationDiff (base o) !=? #0); simpl;
       [destruct (rotational_diffusion _ _ _ _ _ _ _ _ _ _ _ _ _ _ _ _)
          as [f' v']; simpl|]);
      destruct (isCUDAErrorCheckingEnabled (m_exec_conf (base o))); simpl;
      unfold CHECK_CUDA_ERROR, bind, get; simpl;
      try match goal with
          | |- context [cudaGetLastError ?x] => destruct (cudaGetLastError x)
          end; reflexivity.
  - destruct (isCUDAErrorCheckingEnabled (m_exec_conf (base o))); simpl;
      unfold CHECK_CUDA_ERROR, bind, get; simpl;
      try match goal with
          | |- context [cudaGetLastError ?x] => destruct (cudaGetLastError x)
          end; reflexivity.
Qed.

(** C5.  When the execution configuration reports no CUDA device, the
    constructor of [ActiveForceComputeGPU] throws: it yields no object, so
    no [computeForces] can ever be called on one; and when the base class
    was built, what it throws is the runtime error "Error initializing
    ActiveForceComputeGPU". *)
Theorem construct_without_gpu_throws :
  forall args : ctor_args,
    (forall b, base_construct args = inr b ->
               isCUDAEnabled (m_exec_conf b) = false) ->
    (exists e, construct base_construct args = inl e)
    /\ (forall o, construct base_construct args <> inr o)
    /\ (forall b, base_construct args = inr b ->
          construct base_construct args
          = inl (runtime_error "Error initializing ActiveForceComputeGPU")).
Proof.
  intros args H. unfold construct.
  destruct (base_construct args) as [e|b] eqn:E.
  - split; [exists e; reflexivity|]. split; [discriminate|]. discriminate.
  - simpl. rewrite (H b eq_refl). simpl.
    split; [eexists; reflexivity|]. split; [discriminate|]. reflexivity.
Qed.

(** *** The force-assembly kernel writes the same values when run again *)

Lemma apply_write_lookup (force : list Scalar4) (w : option (nat * Scalar3))
    (i : nat) :
  apply_write force w !! i = (fun c => slot_write i c w) <$> force !! i.
Proof.
  destruct w as [[idx f]|]; simpl.
  - destruct (decide (idx = i)) as [->|Hne].
    + apply list_lookup_alter_eq.
    + rewrite list_lookup_alter_ne by exact Hne.
      destruct (force !! i); reflexivity.
  - destruct (force !! i); reflexivity.
Qed.

Lemma writes_lookup (w : nat -> option (nat * Scalar3)) (tags : list nat)
    (force : list Scalar4) (i : nat) :
  fold_left (fun f t => apply_write f (w t)) tags force !! i
  = (fun c => fold_left (fun c t => slot_write i c (w t)) tags c) <$> force !! i.
Proof.
  revert force. induction tags as [|t tags IH]; intros force; simpl.
  - destruct (force !! i); reflexivity.
  - rewrite IH, apply_write_lookup.
    destruct (force !! i); reflexivity.
Qed.

Lemma store_force_store_force (f g : Scalar3) (c : Scalar4) :
  store_force f (store_force g c) = store_force f c.
Proof. reflexivity. Qed.

Lemma slot_writes_shape (w : nat -> option (nat * Scalar3)) (tags : list nat)
    (i : nat) :
  (forall c, fold_left (fun c t => slot_write i c (w t)) tags c = c)
  \/ (exists f, forall c,
         fold_left (fun c t => slot_write i c (w t)) tags c = store_force f c).
Proof.
  induction tags as [|t tags IH]; simpl.
  - left; reflexivity.
  - destruct IH as [IH|[f IH]].
    + destruct (w t) as [[idx g]|].
      * destruct (decide (idx = i)) as [E|E].
        -- right. exists g. intros c. rewrite IH. unfold slot_write.
           destruct (decide (idx = i)); [reflexivity|contradiction].
        -- left. intros c. rewrite IH. unfold slot_write.
           destruct (decide (idx = i)); [contradiction|reflexivity].
      * left. intros c. apply IH.
    + right. exists f. intros c. rewrite IH.
      unfold slot_write. destruct (w t) as [[idx g]|]; [|reflexivity].
      destruct (decide (idx = i)); reflexivity.
Qed.

Lemma set_forces_again (N : nat) (d_rtag : list nat)
    (d_force d_orientation : list Scalar4) (d_actVec : list Scalar3)
    (d_actMag : list Scalar) (P : Scalar3) (rx ry rz : Scalar)
    (orientationLink : bool) (block_size : Z) :
  gpu_compute_active_force_set_forces rotate N d_rtag
    (gpu_compute_active_force_set_forces rotate N d_rtag d_force d_orientation
       d_actVec d_actMag P rx ry rz orientationLink block_size)
    d_orientation d_actVec d_actMag P rx ry rz orientationLink block_size
  = gpu_compute_active_force_set_forces rotate N d_rtag d_force d_orientation
      d_actVec d_actMag P rx ry rz orientationLink block_size.
Proof.
  unfold gpu_compute_active_force_set_forces.
  apply list_eq; intros i.
  rewrite !writes_lookup.
  destruct (d_force !! i) as [c|]; simpl; [|reflexivity].
  f_equal.
  destruct (slot_writes_shape
              (set_force_of_tag rotate d_rtag d_orientation d_actVec d_actMag
                 orientationLink) (seq 0 N) i) as [H|[f H]].
  - rewrite !H. reflexivity.
  - rewrite !H. apply store_force_store_force.
Qed.

Lemma after_computeForces_plain (o : ActiveForceComputeGPU Sched) (timestep : Z) :
  (m_rx (base o) !=? #0) = false ->
  (m_rotationDiff (base o) !=? #0) = false ->
  after (computeForces_ timestep) o
  = if fst (shouldCompute (m_sched (base o)) timestep)
    then after (setForces rotate)
           (with_sched o (snd (shouldCompute (m_sched (base o)) timestep)))
    else with_sched o (snd (shouldCompute (m_sched (base o)) timestep)).
Proof.
  intros Hrx Hrd.
  unfold after, run, computeForces, call_shouldCompute, bind, get. simpl.
  destruct (shouldCompute (m_sched (base o)) timestep) as [go s]; simpl.
  destruct go; simpl; [rewrite Hrx; simpl; rewrite Hrd; simpl|];
    destruct (isCUDAErrorCheckingEnabled (m_exec_conf (base o))); simpl;
    unfold CHECK_CUDA_ERROR, bind, get; simpl;
    try match goal with
        | |- context [cudaGetLastError ?x] => destruct (cudaGetLastError x)
        end; reflexivity.
Qed.

(** C8.  With a zero constraint radius ([m_rx != 0] false) and a zero
    rotational-diffusion rate ([m_rotationDiff != 0] false), and nothing
    else touching the object in between, a second [computeForces] after one
    that entered the pipeline leaves the force buffer as the first call
    left it: whether it is scheduled or not, it writes no value that
    differs from what the first call wrote. *)
Theorem computeForces_twice_same_forces :
  forall (o : ActiveForceComputeGPU Sched) (t1 t2 : Z),
    (m_rx (base o) !=? #0) = false ->
    (m_rotationDiff (base o) !=? #0) = false ->
    fst (shouldCompute (m_sched (base o)) t1) = true ->
    m_force (base (after (computeForces_ t2) (after (computeForces_ t1) o)))
    = m_force (base (after (computeForces_ t1) o)).
Proof.
  intros o t1 t2 Hrx Hrd Hgo.
  rewrite (after_computeForces_plain o t1 Hrx Hrd), Hgo.
  set (o0 := with_sched o (snd (shouldCompute (m_sched (base o)) t1))).
  set (o1 := after (setForces rotate) o0).
  assert (Hrx1 : (m_rx (base o1) !=? #0) = false) by exact Hrx.
  assert (Hrd1 : (m_rotationDiff (base o1) !=? #0) = false) by exact Hrd.
  rewrite (after_computeForces_plain o1 t2 Hrx1 Hrd1).
  destruct (fst (shouldCompute (m_sched (base o1)) t2)); [|reflexivity].
  unfold o1, after, run, setForces, bind, get; simpl.
  apply set_forces_again.
Qed.

End ActiveForceProperties.

Section ActiveForceWitnesses.
Import ActiveForceGPU.
Local Open Scope string_scope.
Local Open Scope sc_scope.

Lemma construct_without_gpu_throws_witness :
  (forall b, sample_base_construct sample_args = inr b ->
             isCUDAEnabled (m_exec_conf b) = false)
  /\ construct sample_base_construct sample_args
     = inl (runtime_error "Error initializing ActiveForceComputeGPU").
Proof.
  assert (H : forall b, sample_base_construct sample_args = inr b ->
                        isCUDAEnabled (m_exec_conf b) = false).
  { intros b E. inversion E. reflexivity. }
  split; [exact H|].
  exact (proj2 (proj2 (@construct_without_gpu_throws Double (option Z)
                         sample_base_construct sample_args H))
           (sample_base false) eq_refl).
Defined.

Lemma computeForces_twice_same_forces_witness :
  (m_rx (base sample_compute) !=? #0) = false
  /\ (m_rotationDiff (base sample_compute) !=? #0) = false
  /\ fst (sample_scheduler (m_sched (base sample_compute)) 0) = true
  /\ m_force (base (after (sample_computeForces 1)
                      (after (sample_computeForces 0) sample_compute)))
     = m_force (base (after (sample_computeForces 0) sample_compute)).
Proof.
  assert (Hrx : (m_rx (base sample_compute) !=? #0) = false)
    by (vm_compute; reflexivity).
  assert (Hrd : (m_rotationDiff (base sample_compute) !=? #0) = false)
    by (vm_compute; reflexivity).
  assert (Hgo : fst (sample_scheduler (m_sched (base sample_compute)) 0) = true)
    by reflexivity.
  split; [exact Hrx|]. split; [exact Hrd|]. split; [exact Hgo|].
  exact (@computeForces_twice_same_forces Double (option Z) sample_scheduler
           (fun _ _ _ force actVec actMag _ _ _ _ _ => (force, actVec, actMag))
           (fun _ _ _ force actVec _ _ _ _ _ _ _ _ _ _ _ => (force, actVec))
           (fun _ v => v) (fun _ => None)
           sample_compute 0 1 Hrx Hrd Hgo).
Defined.

End ActiveForceWitnesses.

(** ** Local FFT backend *)

Section DFFTProperties.
Import DFFT.



End DFFTProperties.

(** * Further properties *)

(** ** Flat manifold *)

Section FlatFurther.
Import Flat.
Local Open Scope string_scope.
Local Open Scope sc_scope.

Lemma recognized_permutation (tok tok' : string) :
  Permutation (list_ascii_of_string tok) (list_ascii_of_string tok') ->
  recognized tok = recognized tok'.
Proof.
  intros H.
  destruct (recognized tok) as [p|] eqn:E.
  - symmetry. apply selects_recognized. apply selects_recognized in E.
    unfold selects in *.
    apply Permutation_trans with (list_ascii_of_string tok);
      [apply Permutation_sym; exact H|exact E].
  - destruct (recognized tok') as [p|] eqn:E'; [|reflexivity].
    apply selects_recognized in E'. unfold selects in E'.
    assert (R : recognized tok = Some p).
    { apply selects_recognized. unfold selects.
      apply Permutation_trans with (list_ascii_of_string tok'); assumption. }
    congruence.
Qed.

(** X1.  Over the reals [derivative] is the gradient of
    [implicit_function]: for every selector, recognized or not, moving the
    point by [d] changes the implicit value by the dot product of the
    derivative with [d]. *)
Theorem flat_derivative_is_gradient :
  forall (surf : string) (shift : R) (point d : Scalar3 (S := Exact)),
    implicit_function (construct surf shift) (scalar3_plus point d)
    = (implicit_function (construct surf shift) point
       + dot (derivative (construct surf shift) point) d)%R.
Proof.
  intros surf shift point d.
  rewrite construct_recognized.
  destruct (recognized surf) as [[]|];
    unfold implicit_function, derivative, dot, scalar3_plus; simpl; ring.
Qed.

(** X2.  For every selector the derivative is the same vector at every
    point and for every shift, and it has unit length, in binary64 and
    over the reals. *)
Theorem flat_derivative_constant_unit :
  (forall (S : ScalarArith) (surf : string) (shift shift' : Scalar)
          (point point' : Scalar3),
      derivative (construct surf shift) point
      = derivative (construct surf shift') point')
  /\ (forall (surf : string) (shift : Scalar) (point : Scalar3 (S := Double)),
         dot (derivative (construct surf shift) point)
             (derivative (construct surf shift) point) = #1)
  /\ (forall (surf : string) (shift : R) (point : Scalar3 (S := Exact)),
         dot (derivative (construct surf shift) point)
             (derivative (construct surf shift) point) = 1%R).
Proof.
  split; [|split].
  - intros S surf shift shift' point point'.
    rewrite !construct_recognized.
    destruct (recognized surf) as [[]|]; reflexivity.
  - intros surf shift point. rewrite construct_recognized.
    destruct (recognized surf) as [[]|]; vm_compute; reflexivity.
  - intros surf shift point. rewrite construct_recognized.
    destruct (recognized surf) as [[]|]; unfold derivative, dot; simpl; ring.
Qed.

(** X3.  Whatever the selector, the constructor leaves the object in one
    of four states: exactly one axis flag set together with its code in
    [m_surf] (4 for xy, 5 for xz, 6 for yz), or no flag set and [m_surf]
    unassigned; never two flags at once.  [m_shift] is the shift given. *)
Theorem flat_constructor_states :
  forall (S : ScalarArith) (surf : string) (shift : Scalar),
    m_shift (construct surf shift) = shift
    /\ ((xy (construct surf shift), xz (construct surf shift),
         yz (construct surf shift), m_surf (construct surf shift))
        = (true, false, false, Some 4%Z)
        \/ (xy (construct surf shift), xz (construct surf shift),
            yz (construct surf shift), m_surf (construct surf shift))
           = (false, true, false, Some 5%Z)
        \/ (xy (construct surf shift), xz (construct surf shift),
            yz (construct surf shift), m_surf (construct surf shift))
           = (false, false, true, Some 6%Z)
        \/ (xy (construct surf shift), xz (construct surf shift),
            yz (construct surf shift), m_surf (construct surf shift))
           = (false, false, false, None)).
Proof.
  intros S surf shift. rewrite construct_recognized.
  destruct (recognized surf) as [[]|]; simpl; auto.
Qed.

(** X4.  Over the reals, for a recognized selector the zero set of
    [implicit_function] is the plane on which the normal coordinate equals
    the shift. *)
Theorem flat_zero_set :
  forall (surf : string) (shift : R) (p : plane) (point : Scalar3 (S := Exact)),
    recognized surf = Some p ->
    (implicit_function (construct surf shift) point = 0%R
     <-> coordinate (normal_axis p) point = shift).
Proof.
  intros surf shift p point H.
  rewrite construct_recognized, H.
  destruct p; unfold implicit_function; simpl; split; intros E; lra.
Qed.

Lemma flat_zero_set_witness :
  recognized "YX" = Some XY
  /\ (implicit_function (S := Exact) (construct "YX" 2%R)
        (make_scalar3 5%R 5%R 2%R) = 0%R
      <-> coordinate (S := Exact) (normal_axis XY) (make_scalar3 5%R 5%R 2%R)
          = 2%R).
Proof.
  split; [reflexivity|].
  exact (@flat_zero_set "YX" 2%R XY (make_scalar3 5%R 5%R 2%R) eq_refl).
Defined.

(** X5.  Two selectors with the same characters in any order build the
    same object: the constructor does not depend on the order of the
    letters of its token. *)
Theorem flat_construct_permutation :
  forall (S : ScalarArith) (tok tok' : string) (shift : Scalar),
    Permutation (list_ascii_of_string tok) (list_ascii_of_string tok') ->
    construct tok shift = construct tok' shift.
Proof.
  intros S tok tok' shift H.
  rewrite !construct_recognized, (@recognized_permutation tok tok' H). reflexivity.
Qed.

Lemma flat_construct_permutation_witness :
  Permutation (list_ascii_of_string "ZX") (list_ascii_of_string "XZ")
  /\ construct (S := Double) "ZX" #2 = construct "XZ" #2.
Proof.
  assert (H : Permutation (list_ascii_of_string "ZX") (list_ascii_of_string "XZ"))
    by (simpl; apply perm_swap).
  split; [exact H|].
  exact (@flat_construct_permutation Double "ZX" "XZ" #2 H).
Defined.

End FlatFurther.

(** ** Van der Waals evaluator *)

Section VanDerWaalsFurther.
Import VanDerWaals.
Local Open Scope sc_scope.

(** Reads an equation between scalars of the exact instance as one
    between reals, for [ring] and [field]. *)
Ltac real_eq :=
  match goal with |- @eq _ ?l ?r => change (@eq R l r) end.

(** X6.  The cutoff test of [evalRepulsiveAndAttractive] is sound as a
    filter: whenever it returns false (beyond the cutoff, or when a
    distance is not a number), [evalPhi] and [evalForceij] change nothing,
    so skipping the pair loses no contribution.  The call itself leaves
    [fR] and [fA] as they were. *)
Theorem cutoff_test_false_no_contribution :
  forall (S : ScalarArith) (ev : EvaluatorVanDerWaals)
         (fR fA chi phi : Scalar) (out : ForceijOut),
    fst (evalRepulsiveAndAttractive ev fR fA) = false ->
    evalPhi ev phi = phi
    /\ evalForceij ev fR fA chi phi out = out
    /\ snd (evalRepulsiveAndAttractive ev fR fA) = (fR, fA).
Proof.
  intros S ev fR fA chi phi out H. simpl in H.
  unfold evalPhi, evalForceij. rewrite H. auto.
Qed.

Lemma cutoff_test_false_no_contribution_witness :
  fst (evalRepulsiveAndAttractive pair_at_nan #0 #0) = false
  /\ evalPhi pair_at_nan #3 = #3
  /\ evalForceij pair_at_nan #0 #0 #0 #3 (out_with 5) = out_with 5.
Proof.
  assert (H : fst (evalRepulsiveAndAttractive pair_at_nan #0 #0) = false)
    by (vm_compute; reflexivity).
  split; [exact H|].
  pose proof (@cutoff_test_false_no_contribution Double pair_at_nan #0 #0 #0 #3
                (out_with 5) H) as [H1 [H2 _]].
  split; [exact H1|exact H2].
Defined.

(** X7.  No method reads [rik_sq], and [evalSelfEnergy] reads neither
    distance nor the previous content of [energy]: [setRik] changes no
    result of [evalRepulsiveAndAttractive], [evalPhi] or [evalForceij], and
    the self energy is the same after any [setRij] and [setRik]. *)
Theorem evaluator_ignores_rik :
  forall (S : ScalarArith) (ev : EvaluatorVanDerWaals) (r r' : Scalar),
    (forall fR fA,
        evalRepulsiveAndAttractive (setRik ev r) fR fA
        = evalRepulsiveAndAttractive ev fR fA)
    /\ (forall phi, evalPhi (setRik ev r) phi = evalPhi ev phi)
    /\ (forall fR fA chi phi out,
          evalForceij (setRik ev r) fR fA chi phi out
          = evalForceij ev fR fA chi phi out)
    /\ (forall logf energy energy' phi,
          evalSelfEnergy logf (setRij (setRik ev r) r') energy phi
          = evalSelfEnergy logf ev energy' phi).
Proof.
  intros S ev r r'. repeat split.
Qed.

Lemma self_weight_pos (ev : EvaluatorVanDerWaals (S := Exact)) :
  (0 < rcutsq ev)%R -> (0 < self_weight ev)%R.
Proof.
  intros H. unfold self_weight; simpl.
  pose proof PI_RGT_0 as HPI.
  pose proof (sqrt_lt_R0 _ H) as Hs.
  apply Rdiv_lt_0_compat.
  - apply Rdiv_lt_0_compat; lra.
  - apply Rmult_lt_0_compat; assumption.
Qed.

Lemma ratio_in_unit (r c : R) :
  (0 <= r < c)%R -> (0 <= sqrt r / sqrt c < 1)%R.
Proof.
  intros H.
  assert (Hc : (0 < sqrt c)%R) by (apply sqrt_lt_R0; lra).
  assert (Hr : (0 <= sqrt r)%R) by apply sqrt_pos.
  assert (Hlt : (sqrt r < sqrt c)%R) by (apply sqrt_lt_1_alt; exact H).
  split.
  - apply Rmult_le_pos; [exact Hr|]. left. apply Rinv_0_lt_compat. exact Hc.
  - apply (Rmult_lt_reg_r (sqrt c)); [exact Hc|].
    unfold Rdiv. rewrite Rmult_assoc, Rinv_l by lra. lra.
Qed.

Lemma evalPhi_weighted (ev : EvaluatorVanDerWaals (S := Exact)) (phi : R) :
  evalPhi ev phi
  = if Rltb (rij_sq ev) (rcutsq ev)
    then (phi + (1 - sqrt (rij_sq ev) / sqrt (rcutsq ev))
                * (1 - sqrt (rij_sq ev) / sqrt (rcutsq ev)) * self_weight ev)%R
    else phi.
Proof. reflexivity. Qed.

(** X8.  Over the reals, a neighbour inside the cutoff
    ([0 <= rij_sq < rcutsq]) adds a positive amount to the density, and at
    most the self weight 15/(2 pi rcutsq rcut); a neighbour at zero
    distance adds the self weight exactly. *)
Theorem evalPhi_increment_bounds :
  forall (ev : EvaluatorVanDerWaals (S := Exact)) (phi : R),
    (0 <= rij_sq ev < rcutsq ev)%R ->
    (phi < evalPhi ev phi <= phi + self_weight ev)%R
    /\ evalPhi (setRij ev 0%R) phi = (phi + self_weight ev)%R.
Proof.
  intros ev phi H.
  assert (Hc : (0 < rcutsq ev)%R) by lra.
  pose proof (self_weight_pos ev Hc) as Hw.
  pose proof (ratio_in_unit H) as Hq.
  split.
  - rewrite evalPhi_weighted.
    replace (Rltb (rij_sq ev) (rcutsq ev)) with true
      by (symmetry; apply Rltb_true; lra).
    generalize dependent (sqrt (rij_sq ev) / sqrt (rcutsq ev))%R.
    generalize dependent (self_weight ev).
    intros w Hw q Hq.
    assert (Hf : (0 < (1 - q) * (1 - q) <= 1)%R) by nra.
    generalize dependent ((1 - q) * (1 - q))%R. intros f Hf.
    split; nra.
  - rewrite evalPhi_weighted. unfold setRij; simpl rij_sq; simpl rcutsq.
    replace (Rltb 0 (rcutsq ev)) with true
      by (symmetry; apply Rltb_true; lra).
    change (self_weight _) with (self_weight ev).
    rewrite sqrt_0. unfold Rdiv. rewrite Rmult_0_l.
    change (@eq R (phi + (1 - 0) * (1 - 0) * self_weight ev)%R
                  (phi + self_weight ev)%R).
    ring.
Qed.

Lemma evalPhi_increment_bounds_witness :
  (0 <= rij_sq (exact_pair_at 1) < rcutsq (exact_pair_at 1))%R
  /\ (0 < evalPhi (exact_pair_at 1) 0%R
         <= 0 + self_weight (exact_pair_at 1))%R.
Proof.
  assert (H : (0 <= rij_sq (exact_pair_at 1) < rcutsq (exact_pair_at 1))%R)
    by (simpl; lra).
  split; [exact H|].
  exact (proj1 (@evalPhi_increment_bounds (exact_pair_at 1) 0%R H)).
Defined.

Lemma self_weight_cube (ev : EvaluatorVanDerWaals (S := Exact)) :
  self_weight ev = (15 / (2 * PI * sqrt (rcutsq ev) ^ 3))%R.
Proof.
  unfold self_weight; simpl sc_div; simpl sc_mul; simpl sc_sqrt;
    simpl sc_lit; simpl sc_pi.
  unfold Rdiv.
  destruct (cube_of_root (rcutsq ev)) as [E|E].
  - rewrite E, !Rinv_mult. real_eq. ring.
  - rewrite E, !Rinv_mult, !Rinv_0. simpl. rewrite !Rmult_0_l, !Rinv_0. real_eq. ring.
Qed.

(** X9.  Over the reals the closed form of the increment holds up to and
    including the cutoff: for [rij_sq <= rcutsq] with a positive cutoff
    [evalPhi] returns [phi + g], and at [rij_sq = rcutsq] the increment [g]
    is zero, so the density has no jump where the cutoff test switches. *)
Theorem evalPhi_closed_form_at_cutoff :
  forall (ev : EvaluatorVanDerWaals (S := Exact)) (phi : R),
    (0 < rcutsq ev)%R ->
    (rij_sq ev <= rcutsq ev)%R ->
    evalPhi ev phi = (phi + density_increment (rij_sq ev) (rcutsq ev))%R
    /\ density_increment (rcutsq ev) (rcutsq ev) = 0%R.
Proof.
  intros ev phi Hc Hle.
  assert (Hs : (0 < sqrt (rcutsq ev))%R) by (apply sqrt_lt_R0; exact Hc).
  assert (Z : density_increment (rcutsq ev) (rcutsq ev) = 0%R).
  { unfold density_increment.
    replace (sqrt (rcutsq ev) / sqrt (rcutsq ev))%R with 1%R by (field; lra).
    ring. }
  split; [|exact Z].
  rewrite evalPhi_weighted.
  destruct (Rltb (rij_sq ev) (rcutsq ev)) eqn:E.
  - unfold density_increment. rewrite self_weight_cube.
    change (@eq R
      (phi + (1 - sqrt (rij_sq ev) / sqrt (rcutsq ev))
             * (1 - sqrt (rij_sq ev) / sqrt (rcutsq ev))
             * (15 / (2 * PI * sqrt (rcutsq ev) ^ 3)))%R
      (phi + 15 / (2 * PI * sqrt (rcutsq ev) ^ 3)
             * (1 - sqrt (rij_sq ev) / sqrt (rcutsq ev)) ^ 2)%R).
    ring.
  - apply Rltb_false in E.
    assert (Q : rij_sq ev = rcutsq ev) by (apply Rle_antisym; assumption).
    rewrite Q, Z.
    change (@eq R phi (phi + 0)%R). ring.
Qed.

Lemma evalPhi_closed_form_at_cutoff_witness :
  (0 < rcutsq (exact_pair_at 4))%R
  /\ (rij_sq (exact_pair_at 4) <= rcutsq (exact_pair_at 4))%R
  /\ evalPhi (exact_pair_at 4) 1%R = (1 + density_increment 4 4)%R.
Proof.
  assert (Hc : (0 < rcutsq (exact_pair_at 4))%R) by (simpl; lra).
  assert (Hle : (rij_sq (exact_pair_at 4) <= rcutsq (exact_pair_at 4))%R)
    by (simpl; lra).
  split; [exact Hc|]. split; [exact Hle|].
  exact (proj1 (@evalPhi_closed_form_at_cutoff (exact_pair_at 4) 1%R Hc Hle)).
Defined.

Lemma derivable_pt_lim_value (f : R -> R) (x l l' : R) :
  derivable_pt_lim f x l -> l = l' -> derivable_pt_lim f x l'.
Proof. intros H E. rewrite <- E. exact H. Qed.

Lemma energy_derivative (T a b alpha w phi : R) :
  (0 < b -> 0 < phi + w -> b * (phi + w) < 1 ->
  derivable_pt_lim
    (fun p => T * ln (b * (p + w) / (1 - b * (p + w))) - a * (p + w)
              - 1 / 2 * alpha * a * b * (p + w) * (p + w))
    phi
    (T / (phi + w) / (1 - b * (phi + w)) - a - alpha * a * b * (phi + w)))%R.
Proof.
  Local Open Scope R_scope.
  intros Hb Hr Hlt.
  assert (H1 : derivable_pt_lim (fun p => p + w) phi 1).
  { apply derivable_pt_lim_value with (1 + 0); [|ring].
    apply (derivable_pt_lim_plus id (fct_cte w)).
    - apply derivable_pt_lim_id.
    - apply derivable_pt_lim_const. }
  assert (H2 : derivable_pt_lim (fun p => b * (p + w)) phi b).
  { apply derivable_pt_lim_value with (b * 1); [|ring].
    apply (derivable_pt_lim_scal (fun p => p + w) b phi 1 H1). }
  assert (H3 : derivable_pt_lim (fun p => 1 - b * (p + w)) phi (- b)).
  { apply derivable_pt_lim_value with (0 - b); [|ring].
    apply (derivable_pt_lim_minus (fct_cte 1) (fun p => b * (p + w))).
    - apply derivable_pt_lim_const.
    - exact H2. }
  assert (H4 : derivable_pt_lim (fun p => b * (p + w) / (1 - b * (p + w))) phi
                 (b / (1 - b * (phi + w))²)).
  { apply derivable_pt_lim_value
      with ((b * (1 - b * (phi + w)) - (- b) * (b * (phi + w)))
            / (1 - b * (phi + w))²); [|unfold Rsqr; field; lra].
    apply (derivable_pt_lim_div (fun p => b * (p + w))
             (fun p => 1 - b * (p + w)) phi b (- b) H2 H3). lra. }
  assert (Hu : 0 < b * (phi + w) / (1 - b * (phi + w))).
  { apply Rdiv_lt_0_compat; [apply Rmult_lt_0_compat; lra|lra]. }
  assert (H5 : derivable_pt_lim
                 (fun p => ln (b * (p + w) / (1 - b * (p + w)))) phi
                 (/ (phi + w) / (1 - b * (phi + w)))).
  { apply derivable_pt_lim_value
      with (/ (b * (phi + w) / (1 - b * (phi + w)))
            * (b / (1 - b * (phi + w))²)); [|unfold Rsqr; field; lra].
    apply (derivable_pt_lim_comp
             (fun p => b * (p + w) / (1 - b * (p + w))) ln phi _ _ H4).
    apply derivable_pt_lim_ln. exact Hu. }
  assert (H6 : derivable_pt_lim
                 (fun p => T * ln (b * (p + w) / (1 - b * (p + w)))) phi
                 (T * (/ (phi + w) / (1 - b * (phi + w))))).
  { apply (derivable_pt_lim_scal _ T phi _ H5). }
  assert (H7 : derivable_pt_lim (fun p => a * (p + w)) phi a).
  { apply derivable_pt_lim_value with (a * 1); [|ring].
    apply (derivable_pt_lim_scal (fun p => p + w) a phi 1 H1). }
  assert (H8 : derivable_pt_lim
                 (fun p => 1 / 2 * alpha * a * b * (p + w) * (p + w)) phi
                 (alpha * a * b * (phi + w))).
  { apply derivable_pt_lim_value
      with ((1 / 2 * alpha * a * b * 1) * (phi + w)
            + (1 / 2 * alpha * a * b * (phi + w)) * 1); [|field].
    apply (derivable_pt_lim_mult (fun p => 1 / 2 * alpha * a * b * (p + w))
             (fun p => p + w) phi _ _).
    - apply (derivable_pt_lim_scal (fun p => p + w) (1 / 2 * alpha * a * b) phi 1 H1).
    - exact H1. }
  apply derivable_pt_lim_value
    with (T * (/ (phi + w) / (1 - b * (phi + w))) - a - alpha * a * b * (phi + w));
    [|field; lra].
  apply (derivable_pt_lim_minus _ _ phi _ _
           (derivable_pt_lim_minus _ _ phi _ _ H6 H7) H8).
Qed.

(** X10.  Over the reals, with [logf] the natural logarithm, the force of
    [evalForceij] derives from the energy of [evalSelfEnergy]: where the
    logarithm is defined ([0 < b], [0 < rho], [b rho < 1] for the density
    [rho = phi + norm]) the self energy is differentiable in [phi], and
    inside the cutoff [force_divr] is that derivative times
    [2 norm (1 - rij/rcut) / rcut / rij]. *)
Theorem force_derives_from_self_energy :
  forall (ev : EvaluatorVanDerWaals (S := Exact)) (fR fA chi phi energy : R)
         (out : ForceijOut),
    (0 < b ev)%R ->
    (0 < phi + self_weight ev)%R ->
    (b ev * (phi + self_weight ev) < 1)%R ->
    (rij_sq ev < rcutsq ev)%R ->
    exists D : R,
      derivable_pt_lim (fun p => evalSelfEnergy ln ev energy p) phi D
      /\ force_divr (evalForceij ev fR fA chi phi out)
         = (D * 2 * self_weight ev
            * (1 - sqrt (rij_sq ev) / sqrt (rcutsq ev))
            / sqrt (rcutsq ev) / sqrt (rij_sq ev))%R.
Proof.
  intros ev fR fA chi phi energy out Hb Hr Hlt Hcut.
  exists (T ev / (phi + self_weight ev) / (1 - b ev * (phi + self_weight ev))
          - a ev - alpha ev * a ev * b ev * (phi + self_weight ev))%R.
  split.
  - exact (energy_derivative (T ev) (a ev) (alpha ev) Hb Hr Hlt).
  - unfold evalForceij.
    replace (rij_sq ev <? rcutsq ev) with true
      by (symmetry; apply Rltb_true; exact Hcut).
    reflexivity.
Qed.

Lemma force_derives_from_self_energy_witness :
  (0 < b (exact_pair_at 1))%R
  /\ (rij_sq (exact_pair_at 1) < rcutsq (exact_pair_at 1))%R
  /\ exists D : R,
       derivable_pt_lim (fun p => evalSelfEnergy ln (exact_pair_at 1) 0%R p)
         (/ 2 - self_weight (exact_pair_at 1))%R D
       /\ force_divr (evalForceij (exact_pair_at 1) 0%R 0%R 0%R
                        (/ 2 - self_weight (exact_pair_at 1))%R
                        {| bij := 0%R; force_divr := 0%R; potential_eng := 0%R |})
          = (D * 2 * self_weight (exact_pair_at 1)
             * (1 - sqrt (rij_sq (exact_pair_at 1))
                    / sqrt (rcutsq (exact_pair_at 1)))
             / sqrt (rcutsq (exact_pair_at 1))
             / sqrt (rij_sq (exact_pair_at 1)))%R.
Proof.
  assert (Hb : (0 < b (exact_pair_at 1))%R) by (simpl; lra).
  assert (Hr : (0 < (/ 2 - self_weight (exact_pair_at 1))
                    + self_weight (exact_pair_at 1))%R) by lra.
  assert (Hlt : (b (exact_pair_at 1)
                 * ((/ 2 - self_weight (exact_pair_at 1))
                    + self_weight (exact_pair_at 1)) < 1)%R)
    by (simpl b; lra).
  assert (Hcut : (rij_sq (exact_pair_at 1) < rcutsq (exact_pair_at 1))%R)
    by (simpl; lra).
  split; [exact Hb|]. split; [exact Hcut|].
  exact (@force_derives_from_self_energy (exact_pair_at 1) 0%R 0%R 0%R
           (/ 2 - self_weight (exact_pair_at 1))%R 0%R
           {| bij := 0%R; force_divr := 0%R; potential_eng := 0%R |}
           Hb Hr Hlt Hcut).
Defined.

(** X11.  In every scalar arithmetic, dropping from the neighbour list the
    pairs for which [evalRepulsiveAndAttractive] returns false does not
    change the accumulated density. *)
Theorem accumulatePhi_skips_outside :
  forall (S : ScalarArith) (neighbours : list EvaluatorVanDerWaals)
         (phi0 : Scalar),
    accumulatePhi
      (List.filter (fun ev => fst (evalRepulsiveAndAttractive ev #0 #0))
         neighbours) phi0
    = accumulatePhi neighbours phi0.
Proof.
  intros S neighbours. unfold accumulatePhi.
  induction neighbours as [|ev l IH]; intros phi0; simpl; [reflexivity|].
  destruct (rij_sq ev <? rcutsq ev) eqn:E; simpl.
  - apply IH.
  - rewrite IH.
    assert (Q : evalPhi ev phi0 = phi0) by (unfold evalPhi; rewrite E; reflexivity).
    rewrite Q. reflexivity.
Qed.

(** X12.  Over the reals the accumulated density is the initial value of
    the accumulator plus what the neighbours add to a zero accumulator. *)
Theorem accumulatePhi_offset :
  forall (neighbours : list (EvaluatorVanDerWaals (S := Exact))) (phi0 : R),
    accumulatePhi neighbours phi0 = (phi0 + accumulatePhi neighbours 0%R)%R.
Proof.
  intros neighbours. unfold accumulatePhi.
  induction neighbours as [|ev l IH]; intros phi0; cbn [fold_left].
  - change (@eq R phi0 (phi0 + 0)%R). ring.
  - rewrite IH, (IH (evalPhi ev 0%R)).
    destruct (evalPhi_adds ev) as [c Hc]. rewrite !Hc.
    change (@eq R
      (phi0 + c + fold_left (fun phi ev0 => evalPhi ev0 phi) l 0%R)%R
      (phi0 + (0 + c + fold_left (fun phi ev0 => evalPhi ev0 phi) l 0%R))%R).
    ring.
Qed.

End VanDerWaalsFurther.

(** ** Active force compute on the GPU *)

Section ActiveForceFurther.
Import ActiveForceGPU.
Local Open Scope string_scope.
Local Open Scope sc_scope.

Context {S : ScalarArith}.
Variable Sched : Type.
Variable shouldCompute : Sched -> Z -> bool * Sched.
Variable base_construct : ctor_args -> exn + ActiveForceCompute Sched.
Variable set_constraints :
  nat -> list nat -> list Scalar4 -> list Scalar4 -> list Scalar3 -> list Scalar ->
  Scalar3 -> Scalar -> Scalar -> Scalar -> Z ->
  list Scalar4 * list Scalar3 * list Scalar.
Variable rotational_diffusion :
  nat -> list nat -> list Scalar4 -> list Scalar4 -> list Scalar3 -> list Scalar ->
  Scalar3 -> Scalar -> Scalar -> Scalar -> bool -> Scalar -> Scalar -> Z -> Z -> Z ->
  list Scalar4 * list Scalar3.
Variable rotate : Scalar4 -> Scalar3 -> Scalar3.
Variable cudaGetLastError : ActiveForceComputeGPU Sched -> option exn.

Local Abbreviation computeForces_ :=
  (computeForces shouldCompute set_constraints rotational_diffusion rotate
     cudaGetLastError).

(** Splits the goal along every branch [computeForces] can take. *)
Ltac pipeline_cases o :=
  destruct (m_rx (base o) !=? #0); simpl;
  [destruct (set_constraints _ _ _ _ _ _ _ _ _ _ _) as [[? ?] ?]; simpl|];
  (destruct (m_rotationDiff (base o) !=? #0); simpl;
   [destruct (rotational_diffusion _ _ _ _ _ _ _ _ _ _ _ _ _ _ _ _)
      as [? ?]; simpl|]).

Ltac check_cases o :=
  destruct (isCUDAErrorCheckingEnabled (m_exec_conf (base o))); simpl;
  unfold CHECK_CUDA_ERROR, bind, get; simpl;
  try match goal with
      | |- context [cudaGetLastError ?x] => destruct (cudaGetLastError x)
      end.

(** X13.  The constructor yields an object exactly when the base class
    was built and the execution configuration has CUDA enabled; the object
    is then the base with a block size of 256.  An exception of the base
    class constructor passes through unchanged, also when there is no
    GPU. *)
Theorem construct_succeeds_iff :
  forall (args : ctor_args) (o : ActiveForceComputeGPU Sched),
    (construct base_construct args = inr o
     <-> exists b, base_construct args = inr b
                   /\ isCUDAEnabled (m_exec_conf b) = true
                   /\ o = {| base := b; m_block_size := 256 |})
    /\ (forall e, base_construct args = inl e ->
                  construct base_construct args = inl e).
Proof.
  intros args o. unfold construct.
  destruct (base_construct args) as [e|b].
  - split.
    + split; [discriminate|]. intros (b & E & _). discriminate E.
    + intros e' E. inversion E. reflexivity.
  - simpl. destruct (isCUDAEnabled (m_exec_conf b)) eqn:G; simpl.
    + split; [|discriminate]. split.
      * intros E. inversion E. exists b. auto.
      * intros (b' & E & _ & ->). inversion E. reflexivity.
    + split; [|discriminate]. split; [discriminate|].
      intros (b' & E & G' & _). inversion E. subst b'. congruence.
Qed.

Lemma computeForces_result (o : ActiveForceComputeGPU Sched) (timestep : Z) :
  fst (run (computeForces_ timestep) o)
  = if isCUDAErrorCheckingEnabled (m_exec_conf (base o))
    then match cudaGetLastError (after (computeForces_ timestep) o) with
         | Some e => inl e
         | None => inr tt
         end
    else inr tt.
Proof.
  unfold after, run, computeForces, call_shouldCompute, bind, get. simpl.
  destruct (shouldCompute (m_sched (base o)) timestep) as [go s]; simpl.
  destruct go; simpl.
  - unfold setConstraint, rotationalDiffusion, setForces, bind, get; simpl.
    pipeline_cases o;
      (destruct (isCUDAErrorCheckingEnabled (m_exec_conf (base o))); simpl;
       [|reflexivity]);
      unfold CHECK_CUDA_ERROR, bind, get; simpl;
      match goal with
      | |- context [cudaGetLastError ?x] =>
          destruct (cudaGetLastError x) eqn:E; simpl; rewrite E; reflexivity
      end.
  - (destruct (isCUDAErrorCheckingEnabled (m_exec_conf (base o))); simpl;
     [|reflexivity]);
      unfold CHECK_CUDA_ERROR, bind, get; simpl;
      match goal with
      | |- context [cudaGetLastError ?x] =>
          destruct (cudaGetLastError x) eqn:E; simpl; rewrite E; reflexivity
      end.
Qed.


Lemma computeForces_fields (o : ActiveForceComputeGPU Sched) (timestep : Z) :
    m_sysdef (base (after (computeForces_ timestep) o)) = m_sysdef (base o)
    /\ m_pdata (base (after (computeForces_ timestep) o)) = m_pdata (base o)
    /\ m_exec_conf (base (after (computeForces_ timestep) o))
       = m_exec_conf (base o)
    /\ m_orientationLink (base (after (computeForces_ timestep) o))
       = m_orientationLink (base o)
    /\ m_rotationDiff (base (after (computeForces_ timestep) o))
       = m_rotationDiff (base o)
    /\ m_P (base (after (computeForces_ timestep) o)) = m_P (base o)
    /\ m_rx (base (after (computeForces_ timestep) o)) = m_rx (base o)
    /\ m_ry (base (after (computeForces_ timestep) o)) = m_ry (base o)
    /\ m_rz (base (after (computeForces_ timestep) o)) = m_rz (base o)
    /\ m_seed (base (after (computeForces_ timestep) o)) = m_seed (base o)
    /\ m_deltaT (base (after (computeForces_ timestep) o)) = m_deltaT (base o)
    /\ m_block_size (after (computeForces_ timestep) o) = m_block_size o.
Proof.
  unfold after, run, computeForces, call_shouldCompute, bind, get.
  simpl.
  destruct (shouldCompute (m_sched (base o)) timestep) as [go s]; simpl.
  destruct go; simpl.
  - unfold setConstraint, rotationalDiffusion, setForces, bind, get; simpl.
    pipeline_cases o; check_cases o; repeat split; reflexivity.
  - check_cases o; repeat split; reflexivity.
Qed.

(** X15.  Whatever the scheduler and the kernels do, [computeForces]
    never changes the parameters of the object: system and particle data,
    execution configuration, orientation link, diffusion rate, constraint
    centre and radii, seed, time step and block size are as before.  So
    the steps the pipeline consists of are the same at every timestep. *)
Theorem computeForces_keeps_parameters :
  forall (o : ActiveForceComputeGPU Sched) (timestep timestep' : Z),
    (m_sysdef (base (after (computeForces_ timestep) o)) = m_sysdef (base o)
    /\ m_pdata (base (after (computeForces_ timestep) o)) = m_pdata (base o)
    /\ m_exec_conf (base (after (computeForces_ timestep) o))
       = m_exec_conf (base o)
    /\ m_orientationLink (base (after (computeForces_ timestep) o))
       = m_orientationLink (base o)
    /\ m_rotationDiff (base (after (computeForces_ timestep) o))
       = m_rotationDiff (base o)
    /\ m_P (base (after (computeForces_ timestep) o)) = m_P (base o)
    /\ m_rx (base (after (computeForces_ timestep) o)) = m_rx (base o)
    /\ m_ry (base (after (computeForces_ timestep) o)) = m_ry (base o)
    /\ m_rz (base (after (computeForces_ timestep) o)) = m_rz (base o)
    /\ m_seed (base (after (computeForces_ timestep) o)) = m_seed (base o)
    /\ m_deltaT (base (after (computeForces_ timestep) o)) = m_deltaT (base o)
    /\ m_block_size (after (computeForces_ timestep) o) = m_block_size o)
    /\ pipeline (after (computeForces_ timestep) o) timestep'
       = pipeline o timestep'.
Proof.
  intros o timestep timestep'.
  pose proof (computeForces_fields o timestep) as F.
  split; [exact F|].
  destruct F as (_ & _ & _ & _ & Hrd & _ & Hrx & _).
  unfold pipeline. rewrite Hrx, Hrd. reflexivity.
Qed.

(** X16.  On a timestep for which [shouldCompute] returns false the call
    changes nothing but the scheduler's own state: the force buffer and
    the active directions and magnitudes are left untouched. *)
Theorem computeForces_skipped_timestep :
  forall (o : ActiveForceComputeGPU Sched) (timestep : Z),
    fst (shouldCompute (m_sched (base o)) timestep) = false ->
    after (computeForces_ timestep) o
    = with_sched o (snd (shouldCompute (m_sched (base o)) timestep))
    /\ m_force (base (after (computeForces_ timestep) o)) = m_force (base o)
    /\ m_activeVec (base (after (computeForces_ timestep) o))
       = m_activeVec (base o)
    /\ m_activeMag (base (after (computeForces_ timestep) o))
       = m_activeMag (base o).
Proof.
  intros o timestep H.
  unfold after, run, computeForces, call_shouldCompute, bind, get. simpl.
  destruct (shouldCompute (m_sched (base o)) timestep) as [go s]; simpl in *.
  subst go; simpl.
  check_cases o; repeat split; reflexivity.
Qed.

(** X17.  With a zero constraint radius and a zero diffusion rate the
    active directions and magnitudes are constant: no call of
    [computeForces], scheduled or not, changes them. *)
Theorem computeForces_static_active_state :
  forall (o : ActiveForceComputeGPU Sched) (timestep : Z),
    (m_rx (base o) !=? #0) = false ->
    (m_rotationDiff (base o) !=? #0) = false ->
    m_activeVec (base (after (computeForces_ timestep) o)) = m_activeVec (base o)
    /\ m_activeMag (base (after (computeForces_ timestep) o))
       = m_activeMag (base o).
Proof.
  intros o timestep Hrx Hrd.
  rewrite (after_computeForces_plain shouldCompute set_constraints
             rotational_diffusion rotate cudaGetLastError o timestep Hrx Hrd).
  destruct (fst (shouldCompute (m_sched (base o)) timestep));
    split; reflexivity.
Qed.


(** X19.  On a scheduled timestep with a nonzero constraint radius and a
    nonzero diffusion rate the three steps feed one another: the diffusion
    kernel receives the force buffer, directions and magnitudes the
    constraint kernel returned, and the force-assembly kernel receives the
    force buffer and directions the diffusion kernel returned together
    with the magnitudes of the constraint kernel.  These are also the
    directions and magnitudes the object holds afterwards. *)
Theorem computeForces_data_flow :
  forall (o : ActiveForceComputeGPU Sched) (timestep : Z)
         (f1 f2 : list Scalar4) (v1 v2 : list Scalar3) (g1 : list Scalar),
    fst (shouldCompute (m_sched (base o)) timestep) = true ->
    (m_rx (base o) !=? #0) = true ->
    (m_rotationDiff (base o) !=? #0) = true ->
    set_constraints (getN (m_pdata (base o))) (getRTags (m_pdata (base o)))
      (getPositions (m_pdata (base o))) (m_force (base o))
      (m_activeVec (base o)) (m_activeMag (base o))
      (m_P (base o)) (m_rx (base o)) (m_ry (base o)) (m_rz (base o))
      (m_block_size o) = (f1, v1, g1) ->
    rotational_diffusion (getN (m_pdata (base o))) (getRTags (m_pdata (base o)))
      (getPositions (m_pdata (base o))) f1 v1 g1
      (m_P (base o)) (m_rx (base o)) (m_ry (base o)) (m_rz (base o))
      (getNDimensions (m_sysdef (base o)) =? 2)%Z
      (m_rotationDiff (base o)) (m_deltaT (base o)) timestep (m_seed (base o))
      (m_block_size o) = (f2, v2) ->
    m_activeVec (base (after (computeForces_ timestep) o)) = v2
    /\ m_activeMag (base (after (computeForces_ timestep) o)) = g1
    /\ m_force (base (after (computeForces_ timestep) o))
       = gpu_compute_active_force_set_forces rotate
           (getN (m_pdata (base o))) (getRTags (m_pdata (base o))) f2
           (getOrientationArray (m_pdata (base o))) v2 g1
           (m_P (base o)) (m_rx (base o)) (m_ry (base o)) (m_rz (base o))
           (Bool.eqb (m_orientationLink (base o)) true
            && (0 <? getNumBodies (m_sysdef (base o)))%nat)
           (m_block_size o).
Proof.
  intros o timestep f1 f2 v1 v2 g1 Hgo Hrx Hrd Hc Hd.
  unfold after, run, computeForces, call_shouldCompute, bind, get. simpl.
  destruct (shouldCompute (m_sched (base o)) timestep) as [go s]; simpl in *.
  subst go; simpl.
  rewrite Hrx; simpl.
  unfold setConstraint, bind, get; simpl. rewrite Hc; simpl.
  rewrite Hrd; simpl.
  unfold rotationalDiffusion, bind, get; simpl. rewrite Hd; simpl.
  unfold setForces, bind, get; simpl.
  check_cases o; repeat split; reflexivity.
Qed.

End ActiveForceFurther.

Section ActiveForceFurtherWitnesses.
Import ActiveForceGPU.
Local Open Scope sc_scope.

Lemma computeForces_data_flow_witness :
  m_activeVec (base (after (computeForces sample_scheduler sample_set_constraints
                              sample_rotational_diffusion (fun _ v => v)
                              (fun _ => None) 0) sample_constrained))
  = [make_scalar3 (S := Double) #0 #1 #0; make_scalar3 #1 #0 #0]
  /\ m_activeMag (base (after (computeForces sample_scheduler
                                 sample_set_constraints
                                 sample_rotational_diffusion (fun _ v => v)
                                 (fun _ => None) 0) sample_constrained))
     = [float_of_Z 4; float_of_Z 6].
Proof.
  pose proof (@computeForces_data_flow Double (option Z) sample_scheduler
                sample_set_constraints sample_rotational_diffusion
                (fun _ v => v) (fun _ => None) sample_constrained 0
                (m_force (base sample_constrained))
                (m_force (base sample_constrained))
                (m_activeVec (base sample_constrained))
                [make_scalar3 (S := Double) #0 #1 #0; make_scalar3 #1 #0 #0]
                [float_of_Z 4; float_of_Z 6]
                eq_refl eq_refl eq_refl) as H.
  assert (Hc : sample_set_constraints (getN (m_pdata (base sample_constrained)))
                 (getRTags (m_pdata (base sample_constrained)))
                 (getPositions (m_pdata (base sample_constrained)))
                 (m_force (base sample_constrained))
                 (m_activeVec (base sample_constrained))
                 (m_activeMag (base sample_constrained))
                 (m_P (base sample_constrained)) (m_rx (base sample_constrained))
                 (m_ry (base sample_constrained)) (m_rz (base sample_constrained))
                 (m_block_size sample_constrained)
               = (m_force (base sample_constrained),
                  m_activeVec (base sample_constrained), [float_of_Z 4; float_of_Z 6]))
    by (vm_compute; reflexivity).
  specialize (H Hc eq_refl).
  destruct H as [H1 [H2 _]].
  split; [exact H1|exact H2].
Defined.

Lemma computeForces_skipped_timestep_witness :
  fst (sample_scheduler (m_sched (base (after (sample_computeForces 0)
                                          sample_compute))) 0) = false
  /\ m_force (base (after (sample_computeForces 0)
                      (after (sample_computeForces 0) sample_compute)))
     = m_force (base (after (sample_computeForces 0) sample_compute)).
Proof.
  assert (H : fst (sample_scheduler
                     (m_sched (base (after (sample_computeForces 0)
                                       sample_compute))) 0) = false)
    by (vm_compute; reflexivity).
  split; [exact H|].
  exact (proj1 (proj2 (@computeForces_skipped_timestep Double (option Z)
           sample_scheduler
           (fun _ _ _ force actVec actMag _ _ _ _ _ => (force, actVec, actMag))
           (fun _ _ _ force actVec _ _ _ _ _ _ _ _ _ _ _ => (force, actVec))
           (fun _ v => v) (fun _ => None)
           (after (sample_computeForces 0) sample_compute) 0 H))).
Defined.

Lemma computeForces_static_active_state_witness :
  (m_rx (base sample_compute) !=? #0) = false
  /\ (m_rotationDiff (base sample_compute) !=? #0) = false
  /\ m_activeVec (base (after (sample_computeForces 0) sample_compute))
     = m_activeVec (base sample_compute)
  /\ m_activeMag (base (after (sample_computeForces 0) sample_compute))
     = m_activeMag (base sample_compute).
Proof.
  assert (Hrx : (m_rx (base sample_compute) !=? #0) = false)
    by (vm_compute; reflexivity).
  assert (Hrd : (m_rotationDiff (base sample_compute) !=? #0) = false)
    by (vm_compute; reflexivity).
  split; [exact Hrx|]. split; [exact Hrd|].
  exact (@computeForces_static_active_state Double (option Z) sample_scheduler
           (fun _ _ _ force actVec actMag _ _ _ _ _ => (force, actVec, actMag))
           (fun _ _ _ force actVec _ _ _ _ _ _ _ _ _ _ _ => (force, actVec))
           (fun _ v => v) (fun _ => None) sample_compute 0 Hrx Hrd).
Defined.


End ActiveForceFurtherWitnesses.
